(** * AI Logo Animator: the generation client and the workflow controller

    A shallow embedding of [services/geminiService.ts] and of the [App]
    component (the workflow controller), and the properties of the
    specification checked against them.

    Asynchronous functions are written in a state-and-exception monad
    over the machine state: the React state of [App], the trace of the
    calls that leave the program (remote requests, timers, status
    callbacks) and the number of polls answered so far.  The remote
    services are an oracle record [Remote].  The poll loop carries fuel:
    a run that exhausts it is [Pending], a promise that has not settled. *)

From Stdlib Require Import String Ascii List Bool Arith ZArith Lia.
Import ListNotations.
Local Open Scope string_scope.

(** ** JavaScript values used by the program *)

(** Truthiness of a string: only the empty string is falsy. *)
Definition nonempty (s : string) : bool :=
  match s with
  | EmptyString => false
  | String _ _ => true
  end.

(** Truthiness of [string | null | undefined]; [None] stands for both
    [null] and [undefined]. *)
Definition truthy (v : option string) : bool :=
  match v with
  | Some s => nonempty s
  | None => false
  end.

(** [hay.includes(needle)]. *)
Fixpoint includes (needle hay : string) : bool :=
  if String.prefix needle hay then true
  else match hay with
       | EmptyString => false
       | String _ rest => includes needle rest
       end.

(** [s.split(sep)] for a one-character separator. *)
Fixpoint split (sep : ascii) (s : string) : list string :=
  match s with
  | EmptyString => [EmptyString]
  | String c rest =>
      if Ascii.eqb c sep then EmptyString :: split sep rest
      else match split sep rest with
           | [] => [String c EmptyString]
           | piece :: pieces => String c piece :: pieces
           end
  end.

(** A thrown value: an [Error] object with its message, or anything else
    (a rejected [ProgressEvent], a plain object, ...). *)
Inductive Thrown : Type :=
| ErrorObj (message : string)
| OtherThrown (description : string).

(** [err instanceof Error ? err.message : fallback]. *)
Definition message_or (fallback : string) (err : Thrown) : string :=
  match err with
  | ErrorObj message => message
  | OtherThrown _ => fallback
  end.

(** How a promise of the outside world settles. *)
Inductive Reply (A : Type) : Type :=
| Resolve (a : A)
| Reject (e : Thrown).
Arguments Resolve {A} a.
Arguments Reject {A} e.

(** ** Data of the program *)

(** [AspectRatio] of [types.ts], as the component uses it. *)
Inductive AspectRatio : Type := Landscape_16_9 | Portrait_9_16.

Record File : Type := mkFile { fileName : string }.

(** The part of the image-generation response the client reads. *)
Record GeneratedImage : Type := mkGeneratedImage { imageBytes : string }.
Record GenerateImagesResponse : Type :=
  mkImagesResponse { generatedImages : option (list GeneratedImage) }.

(** The long-running operation handle and the result it may carry; every
    optional link of [operation.response?.generatedVideos?.[0]?.video?.uri]
    is an [option]. *)
Record Video : Type := mkVideo { uri : option string }.
Record GeneratedVideo : Type := mkGeneratedVideo { video : option Video }.
Record GenerateVideosResponse : Type :=
  mkVideosResponse { generatedVideos : option (list GeneratedVideo) }.
Record Operation : Type := mkOperation {
  opName : string;
  done : bool;
  response : option GenerateVideosResponse
}.

(** The response of the direct [fetch] of the video. *)
Record FetchResponse : Type := mkFetchResponse {
  ok : bool;
  statusText : string;
  blob : Reply string
}.

(** The state of the [App] component, one field per [useState]. *)
Record AppState : Type := mkApp {
  apiKeySelected : bool;
  logoDescription : string;
  animationPrompt : string;
  aspectRatio : AspectRatio;
  logoImageBase64 : option string;
  generatedVideoUrl : option string;
  isGeneratingLogo : bool;
  isGeneratingVideo : bool;
  videoStatus : string;
  error : option string
}.

(** Calls that leave the program. *)
Inductive Event : Type :=
| ReadAsDataURL (file : File)
| GenerateImages (prompt : string)
| GenerateVideos (prompt imageB64 : string) (ratio : AspectRatio)
| StatusUpdate (message : string)
| SetTimeout (ms : Z)
| GetVideosOperation (operation : Operation)
| Fetch (url : string)
| CreateObjectURL (content : string).

(** The outside world: the credential of [process.env.API_KEY] and the
    answer to every call.  The [n]-th poll may answer differently from the
    one before it. *)
Record Remote : Type := mkRemote {
  API_KEY : string;
  readAsDataURL : File -> Reply string;
  generateImages : string -> Reply GenerateImagesResponse;
  generateVideos : string -> string -> AspectRatio -> Reply Operation;
  getVideosOperation : nat -> Operation -> Reply Operation;
  fetch : string -> Reply FetchResponse;
  createObjectURL : string -> string
}.

(** The machine: component state, trace of calls, polls answered. *)
Record Sys : Type := mkSys {
  app : AppState;
  trace : list Event;
  polls : nat
}.

(** ** The monad of asynchronous code *)

Inductive Result (A : Type) : Type :=
| Ok (a : A)
| Throw (e : Thrown)
| Pending.
Arguments Ok {A} a.
Arguments Throw {A} e.
Arguments Pending {A}.

Definition M (A : Type) : Type := Sys -> Result A * Sys.

Definition ret {A} (a : A) : M A := fun s => (Ok a, s).

Definition bind {A B} (m : M A) (k : A -> M B) : M B :=
  fun s =>
    match m s with
    | (Ok a, s') => k a s'
    | (Throw e, s') => (Throw e, s')
    | (Pending, s') => (Pending, s')
    end.

Definition throw {A} (e : Thrown) : M A := fun s => (Throw e, s).

(** A promise that has not settled within the fuel of the run. *)
Definition pending {A} : M A := fun s => (Pending, s).

Declare Scope async_scope.
Delimit Scope async_scope with async.
Notation "x <- m ;; k" := (bind m (fun x => k))
  (at level 61, m at next level, right associativity) : async_scope.
Notation "m ;; k" := (bind m (fun _ => k))
  (at level 61, right associativity) : async_scope.
Local Open Scope async_scope.

(** [try { body } catch (err) { handler }]: a pending body stays pending. *)
Definition try_catch {A} (body : M A) (handler : Thrown -> M A) : M A :=
  fun s =>
    match body s with
    | (Throw e, s') => handler e s'
    | other => other
    end.

(** [try { body } finally { cleanup }]: the cleanup runs when the body has
    returned or thrown, and not while it is pending. *)
Definition try_finally {A} (body : M A) (cleanup : M unit) : M A :=
  fun s =>
    match body s with
    | (Ok a, s') =>
        match cleanup s' with
        | (Ok _, s'') => (Ok a, s'')
        | (Throw e, s'') => (Throw e, s'')
        | (Pending, s'') => (Pending, s'')
        end
    | (Throw e, s') =>
        match cleanup s' with
        | (Ok _, s'') => (Throw e, s'')
        | (Throw e', s'') => (Throw e', s'')
        | (Pending, s'') => (Pending, s'')
        end
    | (Pending, s') => (Pending, s')
    end.

Definition emit (e : Event) : M unit :=
  fun s => (Ok tt, mkSys (app s) (trace s ++ [e]) (polls s)).

Definition await {A} (r : Reply A) : M A :=
  match r with
  | Resolve a => ret a
  | Reject e => throw e
  end.

Definition read_app : M AppState := fun s => (Ok (app s), s).

Definition update_app (f : AppState -> AppState) : M unit :=
  fun s => (Ok tt, mkSys (f (app s)) (trace s) (polls s)).

(** ** services/geminiService.ts *)

Module GeminiService.

(** [fileToBase64]: the promise resolves with [reader.result.split(',')[1]]
    ([undefined], here [None], when the data URL has no comma) and rejects
    with the reader's error event. *)
Definition fileToBase64 (env : Remote) (file : File) : M (option string) :=
  emit (ReadAsDataURL file) ;;
  result <- await (readAsDataURL env file) ;;
  ret (nth_error (split "," result) 1).

Definition dquote : string := String (ascii_of_nat 34) EmptyString.

(** The template literal sent as the image prompt. *)
Definition logoPrompt (prompt : string) : string :=
  "a professional, modern, vector-style logo for a company. Description: "
  ++ dquote ++ prompt ++ dquote
  ++ ". The logo should be on a clean, solid-colored background. Minimalist, flat design.".

Definition generateLogoImage (env : Remote) (prompt : string) : M string :=
  emit (GenerateImages (logoPrompt prompt)) ;;
  response <- await (generateImages env (logoPrompt prompt)) ;;
  match generatedImages response with
  | Some (first :: _) => ret (imageBytes first)
  | _ => throw (ErrorObj "Image generation failed.")
  end.

Definition loadingMessages : list string :=
  [ "Warming up the animation engine...";
    "Teaching pixels to dance...";
    "Composing a visual symphony...";
    "Rendering the final masterpiece...";
    "Almost there, adding the final sparkle...";
    "Finalizing the sequence...";
    "Polishing the frames..." ].

(** [loadingMessages[i]]. *)
Definition loadingMessage (i : nat) : string :=
  nth i loadingMessages EmptyString.

(** A call of the status callback, recorded in the trace. *)
Definition callStatus (onStatusUpdate : string -> M unit) (message : string)
  : M unit :=
  emit (StatusUpdate message) ;;
  onStatusUpdate message.

(** [await new Promise(resolve => setTimeout(resolve, ms))]. *)
Definition sleep (ms : Z) : M unit := emit (SetTimeout ms).

(** [await ai.models.generateVideos({...})]: model, resolution and number of
    videos are constants of the request. *)
Definition submitVideo (env : Remote) (prompt imageB64 : string)
    (ratio : AspectRatio) : M Operation :=
  emit (GenerateVideos prompt imageB64 ratio) ;;
  await (generateVideos env prompt imageB64 ratio).

(** [await ai.operations.getVideosOperation({ operation })]. *)
Definition refreshOperation (env : Remote) (operation : Operation)
  : M Operation :=
  fun s =>
    let s' := mkSys (app s) (trace s ++ [GetVideosOperation operation])
                    (S (polls s)) in
    await (getVideosOperation env (polls s) operation) s'.

(** The [while (!operation.done)] loop. *)
Fixpoint pollLoop (env : Remote) (onStatusUpdate : string -> M unit)
    (fuel : nat) (operation : Operation) (messageIndex : nat) : M Operation :=
  if done operation then ret operation
  else match fuel with
       | O => pending
       | S fuel' =>
           sleep 10000 ;;
           let messageIndex := (messageIndex + 1) mod length loadingMessages in
           callStatus onStatusUpdate (loadingMessage messageIndex) ;;
           operation <- refreshOperation env operation ;;
           pollLoop env onStatusUpdate fuel' operation messageIndex
       end.

(** Lines 52 to 74: first status, submission, poll loop. *)
Definition pollPhase (env : Remote) (fuel : nat) (imageB64 prompt : string)
    (ratio : AspectRatio) (onStatusUpdate : string -> M unit) : M Operation :=
  let messageIndex := 0 in
  callStatus onStatusUpdate (loadingMessage messageIndex) ;;
  operation <- submitVideo env prompt imageB64 ratio ;;
  pollLoop env onStatusUpdate fuel operation messageIndex.

(** [operation.response?.generatedVideos?.[0]?.video?.uri]. *)
Definition videoUri (operation : Operation) : option string :=
  match response operation with
  | Some r =>
      match generatedVideos r with
      | Some (first :: _) =>
          match video first with
          | Some v => uri v
          | None => None
          end
      | _ => None
      end
  | None => None
  end.

(** Lines 76 to 89: inspection of the result, download, object URL. *)
Definition fetchPhase (env : Remote) (onStatusUpdate : string -> M unit)
    (operation : Operation) : M string :=
  match videoUri operation with
  | Some downloadLink =>
      if nonempty downloadLink then
        callStatus onStatusUpdate "Fetching generated video..." ;;
        let url := downloadLink ++ "&key=" ++ API_KEY env in
        emit (Fetch url) ;;
        videoResponse <- await (fetch env url) ;;
        if ok videoResponse then
          videoBlob <- await (blob videoResponse) ;;
          emit (CreateObjectURL videoBlob) ;;
          ret (createObjectURL env videoBlob)
        else
          throw (ErrorObj ("Failed to download video: "
                           ++ statusText videoResponse))
      else
        throw (ErrorObj
          "Video generation operation completed but no video URI was found.")
  | None =>
      throw (ErrorObj
        "Video generation operation completed but no video URI was found.")
  end.

Definition generateAnimatedVideo (env : Remote) (fuel : nat)
    (imageB64 prompt : string) (ratio : AspectRatio)
    (onStatusUpdate : string -> M unit) : M string :=
  operation <- pollPhase env fuel imageB64 prompt ratio onStatusUpdate ;;
  fetchPhase env onStatusUpdate operation.

End GeminiService.

(** ** The [App] component: the workflow controller *)

Module App.
Import GeminiService.

(** The initial values of the [useState] calls. *)
Definition initialState : AppState :=
  mkApp false EmptyString EmptyString Landscape_16_9
        None None false false EmptyString None.

(** *** State setters *)

Definition setApiKeySelected (v : bool) : M unit :=
  update_app (fun a =>
    mkApp v (logoDescription a) (animationPrompt a) (aspectRatio a)
          (logoImageBase64 a) (generatedVideoUrl a) (isGeneratingLogo a)
          (isGeneratingVideo a) (videoStatus a) (error a)).

Definition setLogoDescription (v : string) : M unit :=
  update_app (fun a =>
    mkApp (apiKeySelected a) v (animationPrompt a) (aspectRatio a)
          (logoImageBase64 a) (generatedVideoUrl a) (isGeneratingLogo a)
          (isGeneratingVideo a) (videoStatus a) (error a)).

Definition setAnimationPrompt (v : string) : M unit :=
  update_app (fun a =>
    mkApp (apiKeySelected a) (logoDescription a) v (aspectRatio a)
          (logoImageBase64 a) (generatedVideoUrl a) (isGeneratingLogo a)
          (isGeneratingVideo a) (videoStatus a) (error a)).

Definition setAspectRatio (v : AspectRatio) : M unit :=
  update_app (fun a =>
    mkApp (apiKeySelected a) (logoDescription a) (animationPrompt a) v
          (logoImageBase64 a) (generatedVideoUrl a) (isGeneratingLogo a)
          (isGeneratingVideo a) (videoStatus a) (error a)).

Definition setLogoImageBase64 (v : option string) : M unit :=
  update_app (fun a =>
    mkApp (apiKeySelected a) (logoDescription a) (animationPrompt a)
          (aspectRatio a) v (generatedVideoUrl a) (isGeneratingLogo a)
          (isGeneratingVideo a) (videoStatus a) (error a)).

Definition setGeneratedVideoUrl (v : option string) : M unit :=
  update_app (fun a =>
    mkApp (apiKeySelected a) (logoDescription a) (animationPrompt a)
          (aspectRatio a) (logoImageBase64 a) v (isGeneratingLogo a)
          (isGeneratingVideo a) (videoStatus a) (error a)).

Definition setIsGeneratingLogo (v : bool) : M unit :=
  update_app (fun a =>
    mkApp (apiKeySelected a) (logoDescription a) (animationPrompt a)
          (aspectRatio a) (logoImageBase64 a) (generatedVideoUrl a) v
          (isGeneratingVideo a) (videoStatus a) (error a)).

Definition setIsGeneratingVideo (v : bool) : M unit :=
  update_app (fun a =>
    mkApp (apiKeySelected a) (logoDescription a) (animationPrompt a)
          (aspectRatio a) (logoImageBase64 a) (generatedVideoUrl a)
          (isGeneratingLogo a) v (videoStatus a) (error a)).

Definition setVideoStatus (v : string) : M unit :=
  update_app (fun a =>
    mkApp (apiKeySelected a) (logoDescription a) (animationPrompt a)
          (aspectRatio a) (logoImageBase64 a) (generatedVideoUrl a)
          (isGeneratingLogo a) (isGeneratingVideo a) v (error a)).

Definition setError (v : option string) : M unit :=
  update_app (fun a =>
    mkApp (apiKeySelected a) (logoDescription a) (animationPrompt a)
          (aspectRatio a) (logoImageBase64 a) (generatedVideoUrl a)
          (isGeneratingLogo a) (isGeneratingVideo a) (videoStatus a) v).

(** *** Handlers

    Every handler is given in two parts, cut at its only [await]: what runs
    at the user's action, and what runs when the awaited promise settles.
    The handler is the first part followed by the second.  [console.error]
    and [console.warn] have no effect on the state and are left out. *)

(** [checkApiKey]: [None] when [window.aistudio] is missing, otherwise the
    answer of [hasSelectedApiKey]. *)
Definition checkApiKey (studio : option (Reply bool)) : M unit :=
  match studio with
  | Some answer =>
      hasKey <- await answer ;;
      setApiKeySelected hasKey
  | None => setApiKeySelected true
  end.

(** [handleSelectKey]: no [try], a rejection of [openSelectKey] escapes. *)
Definition handleSelectKey (opening : Reply unit) : M unit :=
  await opening ;;
  setApiKeySelected true.

(** [event.target.files?.[0]]. *)
Definition firstFile (files : option (list File)) : option File :=
  match files with
  | Some (file :: _) => Some file
  | _ => None
  end.

(** [handleImageUpload], lines 56 to 59. *)
Definition handleImageUpload_begin (files : option (list File))
  : M (option File) :=
  match firstFile files with
  | Some file =>
      setError None ;;
      setGeneratedVideoUrl None ;;
      ret (Some file)
  | None => ret None
  end.

(** [handleImageUpload], lines 60 to 66. *)
Definition handleImageUpload_resume (reading : M (option string)) : M unit :=
  try_catch
    (base64 <- reading ;;
     setLogoImageBase64 base64)
    (fun _ => setError (Some "Failed to read image file.")).

Definition handleImageUpload (env : Remote) (files : option (list File))
  : M unit :=
  started <- handleImageUpload_begin files ;;
  match started with
  | Some file => handleImageUpload_resume (fileToBase64 env file)
  | None => ret tt
  end.

(** [handleGenerateLogo], lines 71 to 78. *)
Definition handleGenerateLogo_begin : M (option string) :=
  a <- read_app ;;
  if negb (nonempty (logoDescription a)) then
    setError (Some "Please enter a description for your logo.") ;;
    ret None
  else
    setError None ;;
    setIsGeneratingLogo true ;;
    setLogoImageBase64 None ;;
    setGeneratedVideoUrl None ;;
    ret (Some (logoDescription a)).

(** [handleGenerateLogo], lines 80 to 89. *)
Definition handleGenerateLogo_resume (generating : M string) : M unit :=
  try_finally
    (try_catch
       (imageB64 <- generating ;;
        setLogoImageBase64 (Some imageB64))
       (fun err =>
          let errorMessage := message_or "An unknown error occurred." err in
          setError (Some ("Logo generation failed: " ++ errorMessage))))
    (setIsGeneratingLogo false).

Definition handleGenerateLogo (env : Remote) : M unit :=
  started <- handleGenerateLogo_begin ;;
  match started with
  | Some description =>
      handleGenerateLogo_resume (generateLogoImage env description)
  | None => ret tt
  end.

(** The value of a truthy [string | null], as the type checker narrows it
    after [if (!v) return]. *)
Definition narrowed (v : option string) : option string :=
  match v with
  | Some s => if nonempty s then Some s else None
  | None => None
  end.

(** [handleGenerateVideo], lines 93 to 103. *)
Definition handleGenerateVideo_begin
  : M (option (string * string * AspectRatio)) :=
  a <- read_app ;;
  match narrowed (logoImageBase64 a) with
  | None =>
      setError (Some "Please generate or upload a logo first.") ;;
      ret None
  | Some logo =>
      if negb (nonempty (animationPrompt a)) then
        setError (Some "Please enter a prompt for the animation.") ;;
        ret None
      else
        setError None ;;
        setIsGeneratingVideo true ;;
        setGeneratedVideoUrl None ;;
        ret (Some (logo, animationPrompt a, aspectRatio a))
  end.

(** [handleGenerateVideo], lines 105 to 121. *)
Definition handleGenerateVideo_resume (generating : M string) : M unit :=
  try_finally
    (try_catch
       (videoUrl <- generating ;;
        setGeneratedVideoUrl (Some videoUrl))
       (fun err =>
          let errorMessage :=
            message_or "An unknown error occurred during video generation."
                       err in
          if includes "Requested entity was not found" errorMessage then
            setError
              (Some "API Key not found or invalid. Please re-select your API Key.") ;;
            setApiKeySelected false
          else
            setError (Some ("Video generation failed: " ++ errorMessage))))
    (setIsGeneratingVideo false ;;
     setVideoStatus EmptyString).

Definition handleGenerateVideo (env : Remote) (fuel : nat) : M unit :=
  started <- handleGenerateVideo_begin ;;
  match started with
  | Some (logo, prompt, ratio) =>
      handleGenerateVideo_resume
        (generateAnimatedVideo env fuel logo prompt ratio setVideoStatus)
  | None => ret tt
  end.

(** *** The workflow stage

    The stage is not stored: it is read off the two busy flags and the two
    artifacts, in the order in which the results column shows its panels
    (lines 210 to 229). *)
Inductive Stage : Type :=
| NoLogo | LogoGenerating | LogoReady | VideoGenerating | VideoReady.

Definition stage (a : AppState) : Stage :=
  if isGeneratingLogo a then LogoGenerating
  else if isGeneratingVideo a then VideoGenerating
  else if truthy (generatedVideoUrl a) then VideoReady
  else if truthy (logoImageBase64 a) then LogoReady
  else NoLogo.

End App.

(** ** The component under user actions and settling promises

    Between the two parts of a handler the user may act again and other
    promises may settle.  A configuration is the component state together
    with the number of promises in flight for each kind of task; an action
    is possible when the control it uses is rendered and enabled, or when a
    promise of its kind is in flight. *)

Module Workflow.
Import GeminiService App.

Inductive Task : Type := KeyCheck | KeySelection | LogoRun | Upload | VideoRun.

Definition Task_eqb (t u : Task) : bool :=
  match t, u with
  | KeyCheck, KeyCheck | KeySelection, KeySelection | LogoRun, LogoRun
  | Upload, Upload | VideoRun, VideoRun => true
  | _, _ => false
  end.

Record Ctrl : Type := mkCtrl {
  ui : AppState;
  inflight : Task -> nat
}.

Definition spawn (t : Task) (f : Task -> nat) : Task -> nat :=
  fun u => if Task_eqb t u then S (f u) else f u.

Definition retire (t : Task) (f : Task -> nat) : Task -> nat :=
  fun u => if Task_eqb t u then pred (f u) else f u.

Definition running (c : Ctrl) (t : Task) : bool := Nat.ltb 0 (inflight c t).

(** The component is mounted with the key check in flight (the effect of
    lines 46 to 48). *)
Definition mounted : Ctrl :=
  mkCtrl initialState (fun t => if Task_eqb KeyCheck t then 1 else 0).

(** A piece of handler code run on the component state alone. *)
Definition exec {A} (m : M A) (a : AppState) : Result A * AppState :=
  let (r, s) := m (mkSys a [] 0) in (r, app s).

(** The synchronous part of a handler; it leaves a promise of kind [t] in
    flight when it reaches its [await]. *)
Definition begin_task {A} (c : Ctrl) (m : M (option A)) (t : Task) : Ctrl :=
  match exec m (ui c) with
  | (Ok (Some _), a') => mkCtrl a' (spawn t (inflight c))
  | (_, a') => mkCtrl a' (inflight c)
  end.

(** The rest of a handler, run when a promise of kind [t] settles. *)
Definition settle_task (c : Ctrl) (t : Task) (m : M unit) : option Ctrl :=
  if running c t
  then Some (mkCtrl (snd (exec m (ui c))) (retire t (inflight c)))
  else None.

(** A keystroke or a click that only sets state. *)
Definition set_now (c : Ctrl) (m : M unit) : Ctrl :=
  mkCtrl (snd (exec m (ui c))) (inflight c).

Inductive Action : Type :=
| KeyCheckSettles (studio : option (Reply bool))
| ClickSelectKey
| SelectKeySettles (opening : Reply unit)
| TypeDescription (text : string)
| TypePrompt (text : string)
| ClickAspect (ratio : AspectRatio)
| ClickGenerateLogo
| LogoSettles (outcome : Reply string)
| ChooseFiles (files : option (list File))
| UploadSettles (outcome : Reply (option string))
| ClickGenerateAnimation
| StatusArrives (message : string)
| VideoSettles (outcome : Reply string).

(** The [disabled] attributes and the conditional rendering of the
    component: the key selector replaces the workflow while no key is
    selected (line 124); the logo button is disabled while either task runs
    (line 161); the file input is never disabled (lines 171 to 176); the
    second step ignores the pointer while there is no logo (line 180) and
    its button is disabled while a video is generated or there is no logo
    (line 200). *)
Definition enabled (a : AppState) (act : Action) : bool :=
  match act with
  | ClickSelectKey => negb (apiKeySelected a)
  | TypeDescription _ => apiKeySelected a
  | ChooseFiles _ => apiKeySelected a
  | ClickGenerateLogo =>
      apiKeySelected a && negb (isGeneratingLogo a || isGeneratingVideo a)
  | TypePrompt _ | ClickAspect _ =>
      apiKeySelected a && truthy (logoImageBase64 a)
  | ClickGenerateAnimation =>
      apiKeySelected a
      && negb (isGeneratingVideo a || negb (truthy (logoImageBase64 a)))
  | _ => true
  end.

Definition step (c : Ctrl) (act : Action) : option Ctrl :=
  if enabled (ui c) act then
    match act with
    | KeyCheckSettles studio => settle_task c KeyCheck (checkApiKey studio)
    | ClickSelectKey => Some (mkCtrl (ui c) (spawn KeySelection (inflight c)))
    | SelectKeySettles opening =>
        settle_task c KeySelection (handleSelectKey opening)
    | TypeDescription text => Some (set_now c (setLogoDescription text))
    | TypePrompt text => Some (set_now c (setAnimationPrompt text))
    | ClickAspect ratio => Some (set_now c (setAspectRatio ratio))
    | ClickGenerateLogo => Some (begin_task c handleGenerateLogo_begin LogoRun)
    | LogoSettles outcome =>
        settle_task c LogoRun (handleGenerateLogo_resume (await outcome))
    | ChooseFiles files =>
        Some (begin_task c (handleImageUpload_begin files) Upload)
    | UploadSettles outcome =>
        settle_task c Upload (handleImageUpload_resume (await outcome))
    | ClickGenerateAnimation =>
        Some (begin_task c handleGenerateVideo_begin VideoRun)
    | StatusArrives message =>
        if running c VideoRun then Some (set_now c (setVideoStatus message))
        else None
    | VideoSettles outcome =>
        settle_task c VideoRun (handleGenerateVideo_resume (await outcome))
    end
  else None.

Fixpoint steps (c : Ctrl) (acts : list Action) : option Ctrl :=
  match acts with
  | [] => Some c
  | act :: rest =>
      match step c act with
      | Some c' => steps c' rest
      | None => None
      end
  end.



(** The configurations the mounted component can be in. *)
Definition reachable (c : Ctrl) : Prop :=
  exists acts, steps mounted acts = Some c.

End Workflow.

(** ** Observations on a trace, and what a run of the service is told *)

Module Observe.
Import GeminiService.

(** The messages passed to the status callback, in order. *)
Definition statusesOf (events : list Event) : list string :=
  flat_map (fun e => match e with StatusUpdate m => [m] | _ => [] end) events.

(** The delays of the timers set, in order. *)
Definition waitsOf (events : list Event) : list Z :=
  flat_map (fun e => match e with SetTimeout ms => [ms] | _ => [] end) events.

(** The addresses fetched, in order. *)
Definition fetchesOf (events : list Event) : list string :=
  flat_map (fun e => match e with Fetch url => [url] | _ => [] end) events.

(** A status callback that returns normally and touches the component
    state only, as a React state setter does. *)
Definition stateSetter (onStatusUpdate : string -> M unit) : Prop :=
  forall message s,
    exists a, onStatusUpdate message s = (Ok tt, mkSys a (trace s) (polls s)).

(** The handle after [k] refreshes, the first of which is the [n]-th poll
    the service answers; [None] if one of them is rejected. *)
Fixpoint handleAfter (env : Remote) (n : nat) (operation : Operation)
    (k : nat) : option Operation :=
  match k with
  | O => Some operation
  | S k' =>
      match getVideosOperation env n operation with
      | Resolve refreshed => handleAfter env (S n) refreshed k'
      | Reject _ => None
      end
  end.

(** The handle reports "not done" exactly [N] times, then is [final],
    which is done. *)
Definition completesAfter (env : Remote) (n : nat) (operation : Operation)
    (N : nat) (final : Operation) : Prop :=
  (forall k, k < N ->
     exists op, handleAfter env n operation k = Some op /\ done op = false)
  /\ handleAfter env n operation N = Some final
  /\ done final = true.

(** The [i]-th message of the cycle through [loadingMessages]. *)
Definition cycleMessage (i : nat) : string :=
  nth (i mod length loadingMessages) loadingMessages EmptyString.


(** The error of [generateAnimatedVideo] for a result without locator. *)
Definition noResultError : Thrown :=
  ErrorObj "Video generation operation completed but no video URI was found.".

(** [b] is [a] up to the status line. *)
Definition onlyStatusDiffers (a b : AppState) : Prop :=
  b = mkApp (apiKeySelected a) (logoDescription a) (animationPrompt a)
            (aspectRatio a) (logoImageBase64 a) (generatedVideoUrl a)
            (isGeneratingLogo a) (isGeneratingVideo a) (videoStatus b)
            (error a).

(** A computation that changes nothing of the component but the status
    line, however it ends. *)
Definition frames {A} (m : M A) : Prop :=
  forall s r s', m s = (r, s') -> onlyStatusDiffers (app s) (app s').

(** The credential test of [handleGenerateVideo] on a thrown value. *)
Definition credentialRejected (err : Thrown) : bool :=
  includes "Requested entity was not found"
    (message_or "An unknown error occurred during video generation." err).


End Observe.

(** ** Scripted services for concrete runs *)

Module Script.

Definition runningOperation : Operation :=
  mkOperation "operations/logo-animation" false None.

Definition finishedOperation (locator : option string) : Operation :=
  mkOperation "operations/logo-animation" true
    (Some (mkVideosResponse (Some [mkGeneratedVideo (Some (mkVideo locator))]))).

(** A service whose operation is still running at submission and at the
    first [notDone - 1] polls, and is [final] from then on. *)
Definition remote (images : Reply GenerateImagesResponse)
    (reading : Reply string) (submission : Reply Operation)
    (notDone : nat) (final : Operation) (fetched : Reply FetchResponse)
  : Remote :=
  mkRemote "KEY"
    (fun _ => reading)
    (fun _ => images)
    (fun _ _ _ => submission)
    (fun n _ => Resolve (if Nat.ltb (S n) notDone then runningOperation
                         else final))
    (fun _ => fetched)
    (fun content => "blob:" ++ content).

Definition oneImage (bytes : string) : Reply GenerateImagesResponse :=
  Resolve (mkImagesResponse (Some [mkGeneratedImage bytes])).

Definition pngDataUrl : Reply string := Resolve "data:image/png;base64,AAAA".

Definition downloaded : Reply FetchResponse :=
  Resolve (mkFetchResponse true "OK" (Resolve "video-bytes")).

Definition forbidden : Reply FetchResponse :=
  Resolve (mkFetchResponse false "Forbidden" (Resolve EmptyString)).

(** Two polls, then a result with a locator, downloaded successfully. *)
Definition twoPolls : Remote :=
  remote (oneImage "iVBORw0KGgo=") pngDataUrl (Resolve runningOperation) 2
         (finishedOperation (Some "https://videos.example/v1?alt=media"))
         downloaded.


(** One poll, a locator, and a download that is refused. *)
Definition refusedDownload : Remote :=
  remote (oneImage "iVBORw0KGgo=") pngDataUrl (Resolve runningOperation) 1
         (finishedOperation (Some "https://videos.example/v1?alt=media"))
         forbidden.

(** The submission is rejected because the credential is not accepted. *)
Definition rejectedKey : Remote :=
  remote (oneImage "iVBORw0KGgo=") pngDataUrl
         (Reject (ErrorObj "404: Requested entity was not found."))
         0 (finishedOperation None) downloaded.

(** Image generation is rejected, and so is the reading of files. *)
Definition failing : Remote :=
  remote (Reject (ErrorObj "503: service unavailable"))
         (Reject (OtherThrown "ProgressEvent"))
         (Reject (ErrorObj "503: service unavailable"))
         0 (finishedOperation None) downloaded.


(** A component with a key, a logo and a prompt, showing [video]. *)
Definition withLogo (video : option string) : AppState :=
  mkApp true "A minimalist fox icon" "fox winks" Portrait_9_16
        (Some "AAAA") video false false EmptyString None.

(** The same with an empty animation prompt. *)
Definition withoutPrompt : AppState :=
  mkApp true "A minimalist fox icon" EmptyString Portrait_9_16
        (Some "AAAA") None false false EmptyString None.

Definition start (a : AppState) : Sys := mkSys a [] 0.

(** A logo is requested, a file is uploaded while the request is in
    flight, and the animation is started on the uploaded logo. *)
Definition uploadDuringLogoGeneration : list Workflow.Action :=
  [ Workflow.KeyCheckSettles (Some (Resolve true));
    Workflow.TypeDescription "A minimalist fox icon";
    Workflow.ClickGenerateLogo;
    Workflow.ChooseFiles (Some [mkFile "logo.png"]);
    Workflow.UploadSettles (Resolve (Some "AAAA"));
    Workflow.TypePrompt "fox winks";
    Workflow.ClickGenerateAnimation ].

End Script.

(** ** The results column and the credential gate as rendered *)

Module View.

(** The panels of the results column (lines 209 to 243). *)
Inductive Panel : Type :=
| Placeholder
| LogoSpinner
| LogoImage (src : string)
| VideoSpinner (status : string)
| VideoPlayer (src : string) (ratio : AspectRatio).

(** [{cond && <panel/>}]. *)
Definition shown (cond : bool) (panel : Panel) : list Panel :=
  if cond then [panel] else [].

(** [{value && <panel value/>}] for a [string | null]: rendered for a
    non-empty string only. *)
Definition shownWith (value : option string) (cond : bool)
    (panel : string -> Panel) : list Panel :=
  match value with
  | Some v => if nonempty v && cond then [panel v] else []
  | None => []
  end.

Definition resultsColumn (a : AppState) : list Panel :=
  (shown (negb (truthy (logoImageBase64 a)) && negb (isGeneratingLogo a))
         Placeholder
   ++ shown (isGeneratingLogo a) LogoSpinner
   ++ shownWith (logoImageBase64 a)
        (negb (isGeneratingVideo a) && negb (truthy (generatedVideoUrl a)))
        (fun logo => LogoImage ("data:image/png;base64," ++ logo))
   ++ shown (isGeneratingVideo a) (VideoSpinner (videoStatus a))
   ++ shownWith (generatedVideoUrl a) true
        (fun url => VideoPlayer url (aspectRatio a)))%list.



Definition isLogoImage (p : Panel) : bool :=
  match p with LogoImage _ => true | _ => false end.

Definition isVideoPlayer (p : Panel) : bool :=
  match p with VideoPlayer _ _ => true | _ => false end.

End View.

(** ** Further observations on runs of the service *)

Module Runs.
Import GeminiService Observe.

(** The video requests submitted, in order. *)
Definition submitsOf (events : list Event)
  : list (string * string * AspectRatio) :=
  flat_map (fun e => match e with
                     | GenerateVideos prompt imageB64 ratio =>
                         [(prompt, imageB64, ratio)]
                     | _ => []
                     end) events.

(** The handles passed to the refresh call, in order. *)
Definition refreshesOf (events : list Event) : list Operation :=
  flat_map (fun e => match e with
                     | GetVideosOperation op => [op]
                     | _ => []
                     end) events.

(** The image prompts sent, in order. *)
Definition imagePromptsOf (events : list Event) : list string :=
  flat_map (fun e => match e with
                     | GenerateImages prompt => [prompt]
                     | _ => []
                     end) events.

(** The service never reports the operation done: every refresh resolves
    with a handle that is not done. *)
Definition neverDone (env : Remote) : Prop :=
  forall n op,
    exists refreshed,
      getVideosOperation env n op = Resolve refreshed
      /\ done refreshed = false.

(** The handle reports "not done" at submission and after each of the
    first [k] refreshes, and the next refresh is rejected with [e]. *)
Definition rejectedAfter (env : Remote) (n : nat) (operation : Operation)
    (k : nat) (e : Thrown) : Prop :=
  (forall j, j <= k ->
     exists op, handleAfter env n operation j = Some op /\ done op = false)
  /\ exists last,
       handleAfter env n operation k = Some last
       /\ getVideosOperation env (n + k) last = Reject e.

(** A string without the separator. *)
Fixpoint lacks (sep : ascii) (s : string) : bool :=
  match s with
  | EmptyString => true
  | String c rest => negb (Ascii.eqb c sep) && lacks sep rest
  end.

(** The phrase of the credential test. *)
Definition notFoundPhrase : string := "Requested entity was not found".

End Runs.

(** ** Further invariants of the component under interleaved actions *)

Module Gate.
Import App Workflow.


(** An action that can open the credential gate: a key check that finds a
    key or no host at all, or a key selection that completes. *)
Definition grantsKey (act : Action) : bool :=
  match act with
  | KeyCheckSettles None => true
  | KeyCheckSettles (Some (Resolve hasKey)) => hasKey
  | SelectKeySettles (Resolve _) => true
  | _ => false
  end.

(** An upload whose read resolves. *)
Definition uploadArrives (act : Action) : bool :=
  match act with
  | UploadSettles (Resolve _) => true
  | _ => false
  end.

(** No logo is held while one is generated, and the two busy flags are
    not up together. *)
Definition oneTaskAtATime (c : Ctrl) : Prop :=
  (isGeneratingLogo (ui c) = true -> logoImageBase64 (ui c) = None)
  /\ isGeneratingLogo (ui c) && isGeneratingVideo (ui c) = false.

(** Nothing has been requested from a service and nothing is shown. *)
Definition untouched (c : Ctrl) : Prop :=
  ui c = initialState
  /\ inflight c LogoRun = 0
  /\ inflight c Upload = 0
  /\ inflight c VideoRun = 0.

End Gate.

(** ** More scripted services *)

Module Script2.
Import Script.

(** The operation is never reported done. *)
Definition stuck : Remote :=
  mkRemote "KEY" (fun _ => pngDataUrl) (fun _ => oneImage "iVBORw0KGgo=")
    (fun _ _ _ => Resolve runningOperation)
    (fun _ _ => Resolve runningOperation)
    (fun _ => downloaded)
    (fun content => "blob:" ++ content).

(** The first refresh answers "not done", the second is rejected. *)
Definition pollFails : Remote :=
  mkRemote "KEY" (fun _ => pngDataUrl) (fun _ => oneImage "iVBORw0KGgo=")
    (fun _ _ _ => Resolve runningOperation)
    (fun n _ => if Nat.ltb n 1 then Resolve runningOperation
                else Reject (ErrorObj "500: internal error"))
    (fun _ => downloaded)
    (fun content => "blob:" ++ content).

(** The reader answers with a string that is no data URL. *)
Definition noComma : Remote :=
  remote (oneImage "iVBORw0KGgo=") (Resolve "data:")
         (Resolve runningOperation) 1 (finishedOperation None) downloaded.

(** The video service rejects with a value that is no [Error]. *)
Definition throwsObject : Remote :=
  remote (oneImage "iVBORw0KGgo=") pngDataUrl
         (Reject (OtherThrown "{ code: 404, status: 'Requested entity was not found' }"))
         0 (finishedOperation None) downloaded.

(** One poll, a locator, and a fetch that is rejected by the network. *)
Definition offline : Remote :=
  remote (oneImage "iVBORw0KGgo=") pngDataUrl (Resolve runningOperation) 1
         (finishedOperation (Some "https://videos.example/v1?alt=media"))
         (Reject (ErrorObj "TypeError: Failed to fetch")).

(** A component with a key, showing a previous video and an error. *)
Definition withVideoAndError : AppState :=
  mkApp true "A minimalist fox icon" "fox winks" Landscape_16_9
        (Some "OLD") (Some "blob:previous") false false EmptyString
        (Some "Video generation failed: earlier").

End Script2.

(** * Properties *)

Import GeminiService App Workflow Observe.
Local Open Scope list_scope.

(** ** The monad *)

Lemma bind_ok {A B} (m : M A) (k : A -> M B) s a s' :
  m s = (Ok a, s') -> bind m k s = k a s'.
Proof. intros H. unfold bind. rewrite H. reflexivity. Qed.

Lemma bind_throw {A B} (m : M A) (k : A -> M B) s e s' :
  m s = (Throw e, s') -> bind m k s = (Throw e, s').
Proof. intros H. unfold bind. rewrite H. reflexivity. Qed.

Lemma bind_pending {A B} (m : M A) (k : A -> M B) s s' :
  m s = (Pending, s') -> bind m k s = (Pending, s').
Proof. intros H. unfold bind. rewrite H. reflexivity. Qed.

(** ** Strings *)

Lemma prefix_refl (s : string) : String.prefix s s = true.
Proof.
  induction s as [|c s IH]; simpl; [reflexivity|].
  destruct (ascii_dec c c) as [_|Hc]; [exact IH | congruence].
Qed.

Lemma includes_self (s : string) : includes s s = true.
Proof. destruct s; simpl; [reflexivity|]. rewrite prefix_refl.
  destruct (ascii_dec a a); [reflexivity | congruence]. Qed.

Lemma includes_append (needle before hay : string) :
  includes needle hay = true -> includes needle (before ++ hay) = true.
Proof.
  intros H. induction before as [|c before IH]; simpl; [exact H|].
  rewrite IH.
  match goal with |- (if ?b then _ else _) = _ => destruct b end; reflexivity.
Qed.

Lemma narrowed_truthy (v : option string) :
  truthy v = match narrowed v with Some _ => true | None => false end.
Proof. destruct v as [s|]; simpl; [destruct (nonempty s)|]; reflexivity. Qed.

Lemma narrowed_some (v : option string) (s : string) :
  narrowed v = Some s -> v = Some s /\ nonempty s = true.
Proof.
  destruct v as [t|]; simpl; [|discriminate].
  destruct (nonempty t) eqn:E; [|discriminate].
  intros H; inversion H; subst. split; [reflexivity | exact E].
Qed.

(** ** generateLogoImage *)




(** ** handleImageUpload *)

(** C10: when no file is selected (the file list is undefined or empty),
    the upload handler returns and leaves the whole state as it was: the
    error, the logo, the video, and no call is made. *)
Theorem handleImageUpload_no_file
    (env : Remote) (files : option (list File)) (s : Sys) :
  files = None \/ files = Some [] ->
  handleImageUpload env files s = (Ok tt, s).
Proof. intros [H | H]; subst files; reflexivity. Qed.

Lemma handleImageUpload_no_file_witness :
  handleImageUpload Script.twoPolls (Some [])
    (Script.start (Script.withLogo (Some "blob:previous")))
  = (Ok tt, Script.start (Script.withLogo (Some "blob:previous"))).
Proof.
  apply (handleImageUpload_no_file Script.twoPolls (Some [])).
  right; reflexivity.
Defined.

(** C4, as the specification states it, fails: an upload whose read fails
    has already cleared the video shown before the upload. *)
Lemma handleImageUpload_read_failure_clears_video :
  let before := Script.withLogo (Some "blob:previous") in
  let file := mkFile "logo.png" in
  let after :=
    app (snd (handleImageUpload Script.failing (Some [file])
                (Script.start before))) in
  readAsDataURL Script.failing file = Reject (OtherThrown "ProgressEvent")
  /\ generatedVideoUrl before = Some "blob:previous"
  /\ generatedVideoUrl after = None
  /\ generatedVideoUrl after <> generatedVideoUrl before.
Proof. cbv zeta. repeat split; try reflexivity. discriminate. Qed.

(** C4 (amended): when the read of the selected file fails, the handler
    catches the failure, sets the error text "Failed to read image file.",
    leaves the logo and every other field as they were, and leaves the
    video absent (it was cleared when the upload began). *)
Theorem handleImageUpload_read_failure
    (env : Remote) (files : option (list File)) (file : File) (e : Thrown)
    (s : Sys) :
  firstFile files = Some file ->
  readAsDataURL env file = Reject e ->
  let a := app s in
  fst (fileToBase64 env file s) = Throw e
  /\ handleImageUpload env files s =
       (Ok tt,
        mkSys (mkApp (apiKeySelected a) (logoDescription a)
                     (animationPrompt a) (aspectRatio a) (logoImageBase64 a)
                     None (isGeneratingLogo a) (isGeneratingVideo a)
                     (videoStatus a) (Some "Failed to read image file."))
              (trace s ++ [ReadAsDataURL file]) (polls s)).
Proof.
  intros Hfile Hread. cbv zeta. split.
  - unfold fileToBase64, bind, emit. rewrite Hread. reflexivity.
  - unfold handleImageUpload, handleImageUpload_begin. rewrite Hfile.
    unfold handleImageUpload_resume, fileToBase64, try_catch, bind, emit.
    simpl. rewrite Hread. reflexivity.
Qed.

Lemma handleImageUpload_read_failure_witness :
  logoImageBase64
    (app (snd (handleImageUpload Script.failing (Some [mkFile "logo.png"])
                 (Script.start (Script.withLogo (Some "blob:previous"))))))
  = Some "AAAA".
Proof.
  rewrite (proj2 (handleImageUpload_read_failure Script.failing
                    (Some [mkFile "logo.png"]) (mkFile "logo.png")
                    (OtherThrown "ProgressEvent")
                    (Script.start (Script.withLogo (Some "blob:previous")))
                    eq_refl eq_refl)).
  reflexivity.
Defined.

(** ** handleGenerateVideo: the guards *)

(** C7: when the animation is started without a logo or with an empty
    prompt, the handler returns at its guard: no call leaves the program
    (the trace is unchanged and no promise is awaited), a validation
    message is set as the error, and every other field, the logo and the
    video among them, keeps its value. *)
Theorem handleGenerateVideo_guard (env : Remote) (fuel : nat) (s : Sys) :
  truthy (logoImageBase64 (app s)) = false
  \/ animationPrompt (app s) = EmptyString ->
  let a := app s in
  exists text,
    (text = "Please generate or upload a logo first."
     \/ text = "Please enter a prompt for the animation.")
    /\ handleGenerateVideo env fuel s =
         (Ok tt,
          mkSys (mkApp (apiKeySelected a) (logoDescription a)
                       (animationPrompt a) (aspectRatio a)
                       (logoImageBase64 a) (generatedVideoUrl a)
                       (isGeneratingLogo a) (isGeneratingVideo a)
                       (videoStatus a) (Some text))
                (trace s) (polls s))
    /\ fst (handleGenerateVideo_begin s) = Ok None.
Proof.
  intros H. cbv zeta.
  unfold handleGenerateVideo, handleGenerateVideo_begin, bind, read_app.
  rewrite narrowed_truthy in H.
  destruct (narrowed (logoImageBase64 (app s))) as [logo|] eqn:E.
  - destruct H as [H | H]; [discriminate H|].
    assert (Hn : nonempty (animationPrompt (app s)) = false)
      by (rewrite H; reflexivity).
    rewrite Hn. simpl.
    exists "Please enter a prompt for the animation.".
    split; [right; reflexivity|]. split; reflexivity.
  - exists "Please generate or upload a logo first.".
    split; [left; reflexivity|]. split; reflexivity.
Qed.

Lemma handleGenerateVideo_guard_witness :
  exists text,
    (text = "Please generate or upload a logo first."
     \/ text = "Please enter a prompt for the animation.")
    /\ handleGenerateVideo Script.twoPolls 5 (Script.start Script.withoutPrompt)
       = (Ok tt,
          mkSys (mkApp true "A minimalist fox icon" EmptyString Portrait_9_16
                   (Some "AAAA") None false false EmptyString (Some text))
                [] 0)
    /\ fst (handleGenerateVideo_begin (Script.start Script.withoutPrompt))
       = Ok None.
Proof.
  apply (handleGenerateVideo_guard Script.twoPolls 5
           (Script.start Script.withoutPrompt)).
  right; reflexivity.
Defined.

(** ** generateAnimatedVideo: the poll phase *)

Lemma statusesOf_app (xs ys : list Event) :
  statusesOf (xs ++ ys) = statusesOf xs ++ statusesOf ys.
Proof. apply flat_map_app. Qed.

Lemma waitsOf_app (xs ys : list Event) :
  waitsOf (xs ++ ys) = waitsOf xs ++ waitsOf ys.
Proof. apply flat_map_app. Qed.

Lemma fetchesOf_app (xs ys : list Event) :
  fetchesOf (xs ++ ys) = fetchesOf xs ++ fetchesOf ys.
Proof. apply flat_map_app. Qed.

Lemma callStatus_run (cb : string -> M unit) (message : string) (s : Sys) :
  stateSetter cb ->
  exists a,
    callStatus cb message s
    = (Ok tt, mkSys a (trace s ++ [StatusUpdate message]) (polls s)).
Proof.
  intros Hcb. unfold callStatus, bind, emit.
  destruct (Hcb message
              (mkSys (app s) (trace s ++ [StatusUpdate message]) (polls s)))
    as [a Ha].
  exists a. rewrite Ha. reflexivity.
Qed.

Lemma completesAfter_zero env n op final :
  completesAfter env n op 0 final -> op = final /\ done final = true.
Proof.
  intros (_ & H & Hd). simpl in H. inversion H; subst. split; trivial.
Qed.

Lemma completesAfter_step env n op N final :
  completesAfter env n op (S N) final ->
  done op = false
  /\ exists refreshed,
       getVideosOperation env n op = Resolve refreshed
       /\ completesAfter env (S n) refreshed N final.
Proof.
  intros (Hnot & Hfin & Hd). split.
  - destruct (Hnot 0 (Nat.lt_0_succ N)) as (op0 & H0 & Hd0).
    simpl in H0. inversion H0; subst. exact Hd0.
  - simpl in Hfin.
    destruct (getVideosOperation env n op) as [refreshed|e] eqn:E;
      [|discriminate Hfin].
    exists refreshed. split; [reflexivity|]. split; [|split; assumption].
    intros k Hk. destruct (Hnot (S k)) as (opk & Hk1 & Hk2); [lia|].
    simpl in Hk1. rewrite E in Hk1. exists opk. split; assumption.
Qed.

Lemma pollLoop_unfold env cb fuel op idx :
  pollLoop env cb fuel op idx =
  if done op then ret op
  else match fuel with
       | O => pending
       | S fuel' =>
           bind (sleep 10000) (fun _ =>
           bind (callStatus cb
                   (loadingMessage ((idx + 1) mod length loadingMessages)))
                (fun _ =>
           bind (refreshOperation env op) (fun refreshed =>
           pollLoop env cb fuel' refreshed
                    ((idx + 1) mod length loadingMessages))))
       end.
Proof. destruct fuel; reflexivity. Qed.

(** The loop, started at message index [idx] on a handle that reports
    "not done" [N] times: [N] timers of ten seconds, [N] status messages
    following the cycle, [N] refreshes, and the finished handle. *)
Lemma pollLoop_run (env : Remote) (cb : string -> M unit) :
  stateSetter cb ->
  forall N fuel op idx s final,
    completesAfter env (polls s) op N final ->
    N <= fuel ->
    exists a evs,
      pollLoop env cb fuel op idx s
      = (Ok final, mkSys a (trace s ++ evs) (polls s + N))
      /\ statusesOf evs
         = map (fun j => loadingMessage
                           ((idx + S j) mod length loadingMessages))
               (seq 0 N)
      /\ waitsOf evs = repeat 10000%Z N
      /\ fetchesOf evs = [].
Proof.
  intros Hcb. induction N as [|N IH]; intros fuel op idx s final Hrun Hfuel.
  - apply completesAfter_zero in Hrun. destruct Hrun as [-> Hd].
    rewrite pollLoop_unfold, Hd. exists (app s), []. unfold ret.
    rewrite app_nil_r, Nat.add_0_r. destruct s; repeat split; reflexivity.
  - apply completesAfter_step in Hrun.
    destruct Hrun as (Hd & refreshed & Hpoll & Hrest).
    destruct fuel as [|fuel]; [lia|].
    rewrite pollLoop_unfold, Hd.
    set (idx' := (idx + 1) mod length loadingMessages).
    unfold sleep. unfold bind at 1. unfold emit at 1.
    destruct (callStatus_run cb (loadingMessage idx')
                (mkSys (app s) (trace s ++ [SetTimeout 10000]) (polls s)) Hcb)
      as [a1 Hstatus].
    rewrite (bind_ok _ _ _ _ _ Hstatus).
    assert (Hrefresh :
      refreshOperation env op
        (mkSys a1 ((trace s ++ [SetTimeout 10000]) ++
                   [StatusUpdate (loadingMessage idx')]) (polls s))
      = (Ok refreshed,
         mkSys a1 (((trace s ++ [SetTimeout 10000]) ++
                    [StatusUpdate (loadingMessage idx')]) ++
                   [GetVideosOperation op]) (S (polls s)))).
    { unfold refreshOperation. simpl. rewrite Hpoll. reflexivity. }
    rewrite (bind_ok _ _ _ _ _ Hrefresh).
    destruct (IH fuel refreshed idx'
                (mkSys a1 (((trace s ++ [SetTimeout 10000]) ++
                            [StatusUpdate (loadingMessage idx')]) ++
                           [GetVideosOperation op]) (S (polls s)))
                final Hrest ltac:(lia))
      as (a & evs & Hloop & Hst & Hw & Hf).
    exists a,
      ([SetTimeout 10000; StatusUpdate (loadingMessage idx');
        GetVideosOperation op] ++ evs).
    split.
    { rewrite Hloop. simpl polls. simpl trace.
      rewrite <- !app_assoc. simpl.
      replace (S (polls s + N)) with (polls s + S N) by lia. reflexivity. }
    split.
    { rewrite statusesOf_app, Hst.
      change (statusesOf [SetTimeout 10000; StatusUpdate (loadingMessage idx');
                          GetVideosOperation op])
        with [loadingMessage idx'].
      cbn [List.app seq map]. f_equal.
      rewrite <- seq_shift, map_map. apply map_ext. intros j.
      unfold idx'. f_equal.
      rewrite Nat.Div0.add_mod_idemp_l. f_equal. lia. }
    split.
    { rewrite waitsOf_app, Hw. reflexivity. }
    rewrite fetchesOf_app, Hf. reflexivity.
Qed.

(** The poll phase of a run whose submission is accepted. *)
Lemma pollPhase_run (env : Remote) (cb : string -> M unit)
    (fuel : nat) (imageB64 prompt : string) (ratio : AspectRatio)
    (s : Sys) (N : nat) (submitted final : Operation) :
  stateSetter cb ->
  generateVideos env prompt imageB64 ratio = Resolve submitted ->
  completesAfter env (polls s) submitted N final ->
  N <= fuel ->
  exists a evs,
    pollPhase env fuel imageB64 prompt ratio cb s
    = (Ok final, mkSys a (trace s ++ evs) (polls s + N))
    /\ statusesOf evs = map cycleMessage (seq 0 (S N))
    /\ waitsOf evs = repeat 10000%Z N
    /\ fetchesOf evs = [].
Proof.
  intros Hcb Hsubmit Hrun Hfuel. unfold pollPhase.
  destruct (callStatus_run cb (loadingMessage 0) s Hcb) as [a0 Hfirst].
  rewrite (bind_ok _ _ _ _ _ Hfirst).
  unfold submitVideo. unfold bind at 1. unfold bind at 1. unfold emit at 1.
  rewrite Hsubmit. simpl await. unfold ret at 1.
  destruct (pollLoop_run env cb Hcb N fuel submitted 0
              (mkSys a0 ((trace s ++ [StatusUpdate (loadingMessage 0)]) ++
                         [GenerateVideos prompt imageB64 ratio]) (polls s))
              final Hrun Hfuel)
    as (a & evs & Hloop & Hst & Hw & Hf).
  exists a,
    ([StatusUpdate (loadingMessage 0); GenerateVideos prompt imageB64 ratio]
     ++ evs).
  split.
  { rewrite Hloop. simpl polls. simpl trace. rewrite <- !app_assoc.
    reflexivity. }
  split.
  { rewrite statusesOf_app, Hst. cbn [seq map].
    change (statusesOf [StatusUpdate (loadingMessage 0);
                        GenerateVideos prompt imageB64 ratio])
      with [loadingMessage 0].
    cbn [List.app]. f_equal.
    rewrite <- seq_shift, map_map. apply map_ext. intros j. reflexivity. }
  split.
  { rewrite waitsOf_app, Hw. reflexivity. }
  rewrite fetchesOf_app, Hf. reflexivity.
Qed.

(** ** generateAnimatedVideo: the result and the download *)

Lemma fetchPhase_no_locator (env : Remote) (cb : string -> M unit)
    (op : Operation) (s : Sys) :
  truthy (videoUri op) = false ->
  fetchPhase env cb op s = (Throw noResultError, s).
Proof.
  unfold fetchPhase, truthy. destruct (videoUri op) as [link|].
  - intros H. rewrite H. reflexivity.
  - reflexivity.
Qed.

Lemma fetchPhase_located (env : Remote) (cb : string -> M unit)
    (op : Operation) (s : Sys) (link : string) :
  stateSetter cb ->
  narrowed (videoUri op) = Some link ->
  let url := (link ++ "&key=" ++ API_KEY env)%string in
  exists a r evs,
    fetchPhase env cb op s = (r, mkSys a (trace s ++ evs) (polls s))
    /\ statusesOf evs = ["Fetching generated video..."]
    /\ waitsOf evs = []
    /\ fetchesOf evs = [url]
    /\ (forall resp,
          fetch env url = Resolve resp -> ok resp = false ->
          r = Throw (ErrorObj ("Failed to download video: "
                               ++ statusText resp)%string))
    /\ (forall resp content,
          fetch env url = Resolve resp -> ok resp = true ->
          blob resp = Resolve content ->
          r = Ok (createObjectURL env content)).
Proof.
  intros Hcb Hlink. cbv zeta.
  apply narrowed_some in Hlink. destruct Hlink as [Huri Hne].
  unfold fetchPhase. rewrite Huri, Hne.
  destruct (callStatus_run cb "Fetching generated video..." s Hcb)
    as [a Hstatus].
  rewrite (bind_ok _ _ _ _ _ Hstatus).
  unfold bind, emit. cbn [app trace polls].
  set (url := (link ++ "&key=" ++ API_KEY env)%string).
  destruct (fetch env url) as [resp|e] eqn:Hfetch; cbn [await].
  - unfold ret at 1. destruct (ok resp) eqn:Hok.
    + destruct (blob resp) as [content|e] eqn:Hblob; cbn [await].
      * unfold ret. cbn [app trace polls].
        exists a, (Ok (createObjectURL env content)),
          [StatusUpdate "Fetching generated video..."; Fetch url;
           CreateObjectURL content].
        rewrite <- !app_assoc. repeat split; try reflexivity.
        -- intros resp' H. inversion H; subst. congruence.
        -- intros resp' content' H Hk Hb. inversion H; subst.
           rewrite Hblob in Hb. inversion Hb; reflexivity.
      * unfold throw.
        exists a, (Throw e),
          [StatusUpdate "Fetching generated video..."; Fetch url].
        rewrite <- !app_assoc. repeat split; try reflexivity.
        -- intros resp' H. inversion H; subst. congruence.
        -- intros resp' content' H Hk Hb. inversion H; subst.
           rewrite Hblob in Hb. discriminate Hb.
    + unfold throw.
      exists a,
        (Throw (ErrorObj ("Failed to download video: "
                          ++ statusText resp)%string)),
        [StatusUpdate "Fetching generated video..."; Fetch url].
      rewrite <- !app_assoc. repeat split; try reflexivity.
      * intros resp' H _. inversion H; reflexivity.
      * intros resp' content' H Hk. inversion H; subst. congruence.
  - unfold throw.
    exists a, (Throw e),
      [StatusUpdate "Fetching generated video..."; Fetch url].
    rewrite <- !app_assoc. repeat split; try reflexivity.
    + intros resp H. discriminate H.
    + intros resp content H. discriminate H.
Qed.


Lemma setVideoStatus_stateSetter : stateSetter setVideoStatus.
Proof. intros message s. eexists. reflexivity. Qed.



(** C9: when the run completes with a locator and the direct fetch of it
    answers with an unsuccessful response, the run fails with an error
    whose message is "Failed to download video: " followed by the status
    text of that response. *)
Theorem generateAnimatedVideo_download_refused
    (env : Remote) (cb : string -> M unit) (fuel : nat)
    (imageB64 prompt : string) (ratio : AspectRatio) (s : Sys)
    (N : nat) (submitted final : Operation) (link : string)
    (resp : FetchResponse) :
  stateSetter cb ->
  generateVideos env prompt imageB64 ratio = Resolve submitted ->
  completesAfter env (polls s) submitted N final ->
  N <= fuel ->
  narrowed (videoUri final) = Some link ->
  fetch env (link ++ "&key=" ++ API_KEY env)%string = Resolve resp ->
  ok resp = false ->
  exists message,
    fst (generateAnimatedVideo env fuel imageB64 prompt ratio cb s)
    = Throw (ErrorObj message)
    /\ message = ("Failed to download video: " ++ statusText resp)%string
    /\ includes (statusText resp) message = true.
Proof.
  intros Hcb Hsubmit Hrun Hfuel Hlink Hfetch Hok.
  destruct (pollPhase_run env cb fuel imageB64 prompt ratio s N submitted
              final Hcb Hsubmit Hrun Hfuel)
    as (a & evs & Hpoll & _).
  destruct (fetchPhase_located env cb final
              (mkSys a (trace s ++ evs) (polls s + N)) link Hcb Hlink)
    as (a' & r & evs' & Hphase & _ & _ & _ & Hrefused & _).
  exists ("Failed to download video: " ++ statusText resp)%string.
  unfold generateAnimatedVideo.
  rewrite (bind_ok _ _ _ _ _ Hpoll), Hphase. cbn [fst].
  split; [exact (Hrefused resp Hfetch Hok)|]. split; [reflexivity|].
  apply includes_append, includes_self.
Qed.

Lemma refusedDownload_completes :
  completesAfter Script.refusedDownload 0 Script.runningOperation 1
    (Script.finishedOperation (Some "https://videos.example/v1?alt=media")).
Proof.
  split; [|split; reflexivity].
  intros k Hk. destruct k as [|k]; [|lia].
  exists Script.runningOperation; split; reflexivity.
Qed.

Lemma generateAnimatedVideo_download_refused_witness :
  exists message,
    fst (generateAnimatedVideo Script.refusedDownload 1 "AAAA" "fox winks"
           Portrait_9_16 setVideoStatus (Script.start (Script.withLogo None)))
    = Throw (ErrorObj message)
    /\ message = "Failed to download video: Forbidden"%string
    /\ includes "Forbidden" message = true.
Proof.
  exact (generateAnimatedVideo_download_refused Script.refusedDownload
           setVideoStatus 1 "AAAA" "fox winks" Portrait_9_16
           (Script.start (Script.withLogo None)) 1 Script.runningOperation
           (Script.finishedOperation
              (Some "https://videos.example/v1?alt=media"))
           "https://videos.example/v1?alt=media"
           (mkFetchResponse false "Forbidden" (Resolve EmptyString))
           setVideoStatus_stateSetter eq_refl refusedDownload_completes
           (le_n 1) eq_refl eq_refl eq_refl).
Defined.

(** ** The service leaves the component alone, up to the status line *)

Lemma onlyStatusDiffers_refl a : onlyStatusDiffers a a.
Proof. destruct a; reflexivity. Qed.

Lemma onlyStatusDiffers_trans a b c :
  onlyStatusDiffers a b -> onlyStatusDiffers b c -> onlyStatusDiffers a c.
Proof.
  unfold onlyStatusDiffers. intros Hab Hbc. rewrite Hbc, Hab. reflexivity.
Qed.

Lemma frames_ret {A} (a : A) : frames (ret a).
Proof.
  intros s r s' H. inversion H; subst. apply onlyStatusDiffers_refl.
Qed.

Lemma frames_throw {A} (e : Thrown) : frames (@throw A e).
Proof.
  intros s r s' H. inversion H; subst. apply onlyStatusDiffers_refl.
Qed.

Lemma frames_pending {A} : frames (@pending A).
Proof.
  intros s r s' H. inversion H; subst. apply onlyStatusDiffers_refl.
Qed.

Lemma frames_await {A} (reply : Reply A) : frames (await reply).
Proof. destruct reply; [apply frames_ret | apply frames_throw]. Qed.

Lemma frames_emit (e : Event) : frames (emit e).
Proof.
  intros s r s' H. inversion H; subst. apply onlyStatusDiffers_refl.
Qed.

Lemma frames_setVideoStatus (v : string) : frames (setVideoStatus v).
Proof. intros s r s' H. inversion H; subst. reflexivity. Qed.

Lemma frames_bind {A B} (m : M A) (k : A -> M B) :
  frames m -> (forall a, frames (k a)) -> frames (bind m k).
Proof.
  intros Hm Hk s r s' H. unfold bind in H.
  destruct (m s) as [[a|e|] s1] eqn:E.
  - eapply onlyStatusDiffers_trans; [eapply Hm, E | eapply Hk, H].
  - inversion H; subst. eapply Hm, E.
  - inversion H; subst. eapply Hm, E.
Qed.

Lemma frames_callStatus (message : string) :
  frames (callStatus setVideoStatus message).
Proof.
  apply frames_bind; [apply frames_emit|].
  intros _. apply frames_setVideoStatus.
Qed.

Lemma frames_refreshOperation env op : frames (refreshOperation env op).
Proof.
  intros s r s' H. unfold refreshOperation in H.
  apply frames_await in H. exact H.
Qed.

Lemma frames_pollLoop env fuel :
  forall op idx, frames (pollLoop env setVideoStatus fuel op idx).
Proof.
  induction fuel as [|fuel IH]; intros op idx; rewrite pollLoop_unfold;
    destruct (done op); try apply frames_ret; try apply frames_pending.
  apply frames_bind; [apply frames_emit|]. intros _.
  apply frames_bind; [apply frames_callStatus|]. intros _.
  apply frames_bind; [apply frames_refreshOperation|]. intros refreshed.
  apply IH.
Qed.

Lemma frames_fetchPhase env op : frames (fetchPhase env setVideoStatus op).
Proof.
  unfold fetchPhase. destruct (videoUri op) as [link|];
    [|apply frames_throw].
  destruct (nonempty link); [|apply frames_throw].
  apply frames_bind; [apply frames_callStatus|]. intros _.
  apply frames_bind; [apply frames_emit|]. intros _.
  apply frames_bind; [apply frames_await|]. intros resp.
  destruct (ok resp); [|apply frames_throw].
  apply frames_bind; [apply frames_await|]. intros content.
  apply frames_bind; [apply frames_emit|]. intros _. apply frames_ret.
Qed.

Lemma frames_generateAnimatedVideo env fuel imageB64 prompt ratio :
  frames (generateAnimatedVideo env fuel imageB64 prompt ratio setVideoStatus).
Proof.
  apply frames_bind; [|intros op; apply frames_fetchPhase].
  apply frames_bind; [apply frames_callStatus|]. intros _.
  apply frames_bind; [|intros op; apply frames_pollLoop].
  apply frames_bind; [apply frames_emit|]. intros _. apply frames_await.
Qed.


(** ** handleGenerateVideo: the run *)

Lemma handleGenerateVideo_begin_run (s : Sys) (logo : string) :
  narrowed (logoImageBase64 (app s)) = Some logo ->
  nonempty (animationPrompt (app s)) = true ->
  let a := app s in
  handleGenerateVideo_begin s =
    (Ok (Some (logo, animationPrompt a, aspectRatio a)),
     mkSys (mkApp (apiKeySelected a) (logoDescription a) (animationPrompt a)
                  (aspectRatio a) (logoImageBase64 a) None
                  (isGeneratingLogo a) true (videoStatus a) None)
           (trace s) (polls s)).
Proof.
  intros Hlogo Hprompt. cbv zeta.
  unfold handleGenerateVideo_begin, bind, read_app.
  rewrite Hlogo, Hprompt. reflexivity.
Qed.

(** A run that fails: the failure is caught, the busy flag and the status
    line are cleared, the video stays cleared, and the error text (and the
    credential state) depend on the credential test. *)
Lemma handleGenerateVideo_throw (env : Remote) (fuel : nat) (s : Sys)
    (logo : string) (e : Thrown) (s1 : Sys) :
  narrowed (logoImageBase64 (app s)) = Some logo ->
  nonempty (animationPrompt (app s)) = true ->
  generateAnimatedVideo env fuel logo (animationPrompt (app s))
    (aspectRatio (app s)) setVideoStatus (snd (handleGenerateVideo_begin s))
  = (Throw e, s1) ->
  let a := app s in
  handleGenerateVideo env fuel s =
    (Ok tt,
     mkSys (mkApp (if credentialRejected e then false else apiKeySelected a)
                  (logoDescription a) (animationPrompt a) (aspectRatio a)
                  (logoImageBase64 a) None (isGeneratingLogo a) false
                  EmptyString
                  (Some (if credentialRejected e
                         then "API Key not found or invalid. Please re-select your API Key."
                         else ("Video generation failed: "
                               ++ message_or
                                    "An unknown error occurred during video generation."
                                    e)%string)))
           (trace s1) (polls s1)).
Proof.
  intros Hlogo Hprompt Hrun. cbv zeta.
  pose proof (handleGenerateVideo_begin_run s logo Hlogo Hprompt) as Hbegin.
  cbv zeta in Hbegin. rewrite Hbegin in Hrun. cbn [snd] in Hrun.
  pose proof (frames_generateAnimatedVideo _ _ _ _ _ _ _ _ Hrun) as Hframe.
  unfold handleGenerateVideo. rewrite (bind_ok _ _ _ _ _ Hbegin).
  cbv beta iota.
  unfold handleGenerateVideo_resume, try_finally, try_catch.
  rewrite (bind_throw _ _ _ _ _ Hrun).
  destruct s1 as [a1 t1 p1]. unfold onlyStatusDiffers in Hframe.
  destruct a1. cbn in Hframe. inversion Hframe; subst. cbn.
  unfold credentialRejected. cbv zeta.
  destruct (includes "Requested entity was not found"
              (message_or "An unknown error occurred during video generation."
                          e)); reflexivity.
Qed.

(** A run that succeeds: the video is set, the busy flag and the status
    line are cleared. *)
Lemma handleGenerateVideo_ok (env : Remote) (fuel : nat) (s : Sys)
    (logo : string) (videoUrl : string) (s1 : Sys) :
  narrowed (logoImageBase64 (app s)) = Some logo ->
  nonempty (animationPrompt (app s)) = true ->
  generateAnimatedVideo env fuel logo (animationPrompt (app s))
    (aspectRatio (app s)) setVideoStatus (snd (handleGenerateVideo_begin s))
  = (Ok videoUrl, s1) ->
  let a := app s in
  handleGenerateVideo env fuel s =
    (Ok tt,
     mkSys (mkApp (apiKeySelected a) (logoDescription a) (animationPrompt a)
                  (aspectRatio a) (logoImageBase64 a) (Some videoUrl)
                  (isGeneratingLogo a) false EmptyString None)
           (trace s1) (polls s1)).
Proof.
  intros Hlogo Hprompt Hrun. cbv zeta.
  pose proof (handleGenerateVideo_begin_run s logo Hlogo Hprompt) as Hbegin.
  cbv zeta in Hbegin. rewrite Hbegin in Hrun. cbn [snd] in Hrun.
  pose proof (frames_generateAnimatedVideo _ _ _ _ _ _ _ _ Hrun) as Hframe.
  unfold handleGenerateVideo. rewrite (bind_ok _ _ _ _ _ Hbegin).
  cbv beta iota.
  unfold handleGenerateVideo_resume, try_finally, try_catch.
  rewrite (bind_ok _ _ _ _ _ Hrun).
  destruct s1 as [a1 t1 p1]. unfold onlyStatusDiffers in Hframe.
  destruct a1. cbn in Hframe. inversion Hframe; subst. cbn. reflexivity.
Qed.

(** C2, as the specification states it, fails: a run rejected for its
    credential does not leave the video shown before the run; the video was
    cleared when the run began. *)
Lemma handleGenerateVideo_rejection_clears_previous_video :
  let before := Script.withLogo (Some "blob:previous") in
  let after :=
    app (snd (handleGenerateVideo Script.rejectedKey 5 (Script.start before)))
  in
  fst (generateAnimatedVideo Script.rejectedKey 5 "AAAA" "fox winks"
         Portrait_9_16 setVideoStatus
         (snd (handleGenerateVideo_begin (Script.start before))))
  = Throw (ErrorObj "404: Requested entity was not found.")
  /\ credentialRejected (ErrorObj "404: Requested entity was not found.")
     = true
  /\ apiKeySelected after = false
  /\ generatedVideoUrl before = Some "blob:previous"
  /\ generatedVideoUrl after = None
  /\ generatedVideoUrl after <> generatedVideoUrl before.
Proof. cbv zeta. repeat split; try reflexivity. discriminate. Qed.

(** C2 (amended): when video generation fails, the controller catches the
    failure and the video is absent afterwards (it was cleared when the run
    began and the failure does not set it).  If the error message contains
    "Requested entity was not found", the credential state is set to
    absent and the error text asks to re-select the API key; otherwise the
    credential state keeps its value and the error text is
    "Video generation failed: " followed by the message. *)
Theorem handleGenerateVideo_credential_rejection
    (env : Remote) (fuel : nat) (s : Sys) (logo : string) (e : Thrown)
    (s1 : Sys) :
  narrowed (logoImageBase64 (app s)) = Some logo ->
  nonempty (animationPrompt (app s)) = true ->
  generateAnimatedVideo env fuel logo (animationPrompt (app s))
    (aspectRatio (app s)) setVideoStatus (snd (handleGenerateVideo_begin s))
  = (Throw e, s1) ->
  let message :=
    message_or "An unknown error occurred during video generation." e in
  let after := app (snd (handleGenerateVideo env fuel s)) in
  fst (handleGenerateVideo env fuel s) = Ok tt
  /\ generatedVideoUrl after = None
  /\ (includes "Requested entity was not found" message = true ->
      apiKeySelected after = false
      /\ exists text,
           error after = Some text
           /\ includes "re-select your API Key" text = true)
  /\ (includes "Requested entity was not found" message = false ->
      apiKeySelected after = apiKeySelected (app s)
      /\ error after = Some ("Video generation failed: " ++ message)%string).
Proof.
  intros Hlogo Hprompt Hrun. cbv zeta.
  rewrite (handleGenerateVideo_throw env fuel s logo e s1 Hlogo Hprompt Hrun).
  cbn [fst snd app apiKeySelected generatedVideoUrl error].
  unfold credentialRejected.
  split; [reflexivity|]. split; [reflexivity|]. split; intros Hinc;
    rewrite Hinc.
  - split; [reflexivity|]. eexists. split; reflexivity.
  - split; reflexivity.
Qed.

Lemma handleGenerateVideo_credential_rejection_witness :
  apiKeySelected
    (app (snd (handleGenerateVideo Script.rejectedKey 5
                 (Script.start (Script.withLogo None))))) = false.
Proof.
  exact (proj1 (proj1 (proj2 (proj2
    (handleGenerateVideo_credential_rejection Script.rejectedKey 5
       (Script.start (Script.withLogo None)) "AAAA"
       (ErrorObj "404: Requested entity was not found.")
       (mkSys (mkApp true "A minimalist fox icon" "fox winks" Portrait_9_16
                 (Some "AAAA") None false true
                 "Warming up the animation engine..." None)
              [StatusUpdate "Warming up the animation engine...";
               GenerateVideos "fox winks" "AAAA" Portrait_9_16] 0)
       eq_refl eq_refl eq_refl))) eq_refl)).
Defined.

(** ** handleGenerateLogo: the run *)

Lemma handleGenerateLogo_begin_run (s : Sys) :
  nonempty (logoDescription (app s)) = true ->
  let a := app s in
  handleGenerateLogo_begin s =
    (Ok (Some (logoDescription a)),
     mkSys (mkApp (apiKeySelected a) (logoDescription a) (animationPrompt a)
                  (aspectRatio a) None None true (isGeneratingVideo a)
                  (videoStatus a) None)
           (trace s) (polls s)).
Proof.
  intros Hdesc. cbv zeta. unfold handleGenerateLogo_begin, bind, read_app.
  rewrite Hdesc. reflexivity.
Qed.





(** ** A run that completes with or without a locator *)

Lemma handleGenerateVideo_trace (env : Remote) (fuel : nat) (s : Sys)
    (logo : string) (r : Result string) (s1 : Sys) :
  narrowed (logoImageBase64 (app s)) = Some logo ->
  nonempty (animationPrompt (app s)) = true ->
  generateAnimatedVideo env fuel logo (animationPrompt (app s))
    (aspectRatio (app s)) setVideoStatus (snd (handleGenerateVideo_begin s))
  = (r, s1) ->
  trace (snd (handleGenerateVideo env fuel s)) = trace s1.
Proof.
  intros Hlogo Hprompt Hrun. destruct r as [videoUrl|e|].
  - rewrite (handleGenerateVideo_ok env fuel s logo videoUrl s1
               Hlogo Hprompt Hrun). reflexivity.
  - rewrite (handleGenerateVideo_throw env fuel s logo e s1
               Hlogo Hprompt Hrun). reflexivity.
  - pose proof (handleGenerateVideo_begin_run s logo Hlogo Hprompt) as Hbegin.
    cbv zeta in Hbegin. rewrite Hbegin in Hrun. cbn [snd] in Hrun.
    unfold handleGenerateVideo. rewrite (bind_ok _ _ _ _ _ Hbegin).
    cbv beta iota.
    unfold handleGenerateVideo_resume, try_finally, try_catch.
    rewrite (bind_pending _ _ _ _ Hrun). reflexivity.
Qed.




(** ** The busy flags and the artifacts under interleaved actions *)

(** C8: the specification's invariant fails in the component.  A logo is
    requested, a file is uploaded while the request is in flight (the file
    input is never disabled), and the animation is started on the uploaded
    logo (its button does not look at the logo busy flag): the resulting
    configuration is reachable and has both busy flags set, with one logo
    request and one video run in flight. *)
Theorem upload_during_logo_generation_sets_both_busy_flags :
  exists c,
    steps mounted Script.uploadDuringLogoGeneration = Some c
    /\ reachable c
    /\ isGeneratingLogo (ui c) = true
    /\ isGeneratingVideo (ui c) = true
    /\ inflight c LogoRun = 1
    /\ inflight c VideoRun = 1
    /\ ~ (isGeneratingLogo (ui c) = false \/ isGeneratingVideo (ui c) = false).
Proof.
  destruct (steps mounted Script.uploadDuringLogoGeneration) as [c|] eqn:E;
    [|vm_compute in E; discriminate E].
  exists c. split; [reflexivity|].
  split; [exists Script.uploadDuringLogoGeneration; exact E|].
  vm_compute in E. inversion E; subst c. cbn.
  repeat (split; [reflexivity|]). intros [H | H]; discriminate H.
Qed.


Ltac settle_step H :=
  unfold settle_task, running in H;
  match type of H with
  | (if ?b then _ else _) = _ => destruct b eqn:?; [|discriminate H]
  end;
  inversion H; subst; clear H.




(** * Further properties of the code *)

Import View Runs Gate.

(** ** Strings: [includes] and [split] against their meaning *)

Lemma prefix_append_iff (n h : string) :
  String.prefix n h = true <-> exists b, h = (n ++ b)%string.
Proof.
  revert h. induction n as [|c n IH]; intros h.
  - split; [intros _; exists h; reflexivity | destruct h; reflexivity].
  - destruct h as [|d h]; cbn [String.prefix].
    + split; [discriminate | intros [b H]; discriminate H].
    + destruct (ascii_dec c d) as [->|Hcd].
      * rewrite IH. split; intros [b H]; exists b.
        -- cbn. rewrite H. reflexivity.
        -- cbn in H. inversion H. reflexivity.
      * split; [discriminate|]. intros [b H]. cbn in H. inversion H.
        congruence.
Qed.

Lemma includes_unfold (n h : string) :
  includes n h =
  if String.prefix n h then true
  else match h with
       | EmptyString => false
       | String _ rest => includes n rest
       end.
Proof. destruct h; reflexivity. Qed.

(** [includes] is the substring test. *)
Lemma includes_iff (n h : string) :
  includes n h = true <-> exists a b, h = (a ++ n ++ b)%string.
Proof.
  split.
  - induction h as [|c h IH]; rewrite includes_unfold;
      destruct (String.prefix n _) eqn:E.
    + apply prefix_append_iff in E. destruct E as [b H].
      intros _. exists EmptyString, b. exact H.
    + discriminate.
    + apply prefix_append_iff in E. destruct E as [b H].
      intros _. exists EmptyString, b. exact H.
    + intros H. destruct (IH H) as (a & b & Hab).
      exists (String c a), b. cbn. rewrite Hab. reflexivity.
  - intros (a & b & ->). apply includes_append.
    rewrite includes_unfold.
    replace (String.prefix n (n ++ b)) with true; [reflexivity|].
    symmetry. apply prefix_append_iff. exists b. reflexivity.
Qed.

Lemma split_lacks (sep : ascii) (s : string) :
  lacks sep s = true -> split sep s = [s].
Proof.
  induction s as [|c s IH]; cbn; [reflexivity|].
  intros H. apply andb_true_iff in H. destruct H as [Hc Hs].
  apply negb_true_iff in Hc. rewrite Hc, (IH Hs). reflexivity.
Qed.

Lemma split_at_separator (sep : ascii) (a b : string) :
  lacks sep a = true ->
  split sep (a ++ String sep b) = a :: split sep b.
Proof.
  induction a as [|c a IH]; cbn.
  - intros _. rewrite Ascii.eqb_refl. reflexivity.
  - intros H. apply andb_true_iff in H. destruct H as [Hc Ha].
    apply negb_true_iff in Hc. rewrite Hc, (IH Ha). reflexivity.
Qed.

(** ** fileToBase64 and the upload that succeeds *)

(** X1: [fileToBase64] undoes the data-URL framing: when the reader yields
    a header without comma, a comma, and a payload without comma, the
    promise resolves with exactly the payload, after one read of the file. *)
Theorem fileToBase64_strips_header
    (env : Remote) (file : File) (header payload : string) (s : Sys) :
  readAsDataURL env file
  = Resolve (header ++ String ","%char payload)%string ->
  lacks ","%char header = true ->
  lacks ","%char payload = true ->
  fileToBase64 env file s
  = (Ok (Some payload),
     mkSys (app s) (trace s ++ [ReadAsDataURL file]) (polls s)).
Proof.
  intros Hread Hh Hp. unfold fileToBase64, bind, emit. rewrite Hread.
  cbn [await ret]. unfold ret.
  rewrite (split_at_separator _ _ _ Hh), (split_lacks _ _ Hp). reflexivity.
Qed.

Lemma fileToBase64_strips_header_witness :
  fst (fileToBase64 Script.twoPolls (mkFile "logo.png")
         (Script.start initialState)) = Ok (Some "AAAA").
Proof.
  rewrite (fileToBase64_strips_header Script.twoPolls (mkFile "logo.png")
             "data:image/png;base64" "AAAA" (Script.start initialState)
             eq_refl eq_refl eq_refl).
  reflexivity.
Defined.

(** X2: a successful upload replaces the logo by the payload of the data
    URL, clears the video and the error, and changes nothing else. *)
Theorem handleImageUpload_success
    (env : Remote) (files : option (list File)) (file : File)
    (header payload : string) (s : Sys) :
  firstFile files = Some file ->
  readAsDataURL env file
  = Resolve (header ++ String ","%char payload)%string ->
  lacks ","%char header = true ->
  lacks ","%char payload = true ->
  let a := app s in
  handleImageUpload env files s =
    (Ok tt,
     mkSys (mkApp (apiKeySelected a) (logoDescription a) (animationPrompt a)
                  (aspectRatio a) (Some payload) None
                  (isGeneratingLogo a) (isGeneratingVideo a) (videoStatus a)
                  None)
           (trace s ++ [ReadAsDataURL file]) (polls s)).
Proof.
  intros Hfile Hread Hh Hp. cbv zeta.
  assert (Hbegin :
    handleImageUpload_begin files s
    = (Ok (Some file),
       mkSys (mkApp (apiKeySelected (app s)) (logoDescription (app s))
                    (animationPrompt (app s)) (aspectRatio (app s))
                    (logoImageBase64 (app s)) None
                    (isGeneratingLogo (app s)) (isGeneratingVideo (app s))
                    (videoStatus (app s)) None)
             (trace s) (polls s)))
    by (unfold handleImageUpload_begin; rewrite Hfile; reflexivity).
  unfold handleImageUpload. rewrite (bind_ok _ _ _ _ _ Hbegin).
  unfold handleImageUpload_resume, try_catch.
  rewrite (bind_ok _ _ _ _ _
             (fileToBase64_strips_header env file header payload _
                Hread Hh Hp)).
  reflexivity.
Qed.

Lemma handleImageUpload_success_witness :
  app (snd (handleImageUpload Script.twoPolls (Some [mkFile "logo.png"])
              (Script.start Script2.withVideoAndError)))
  = mkApp true "A minimalist fox icon" "fox winks" Landscape_16_9
          (Some "AAAA") None false false EmptyString None.
Proof.
  rewrite (handleImageUpload_success Script.twoPolls
             (Some [mkFile "logo.png"]) (mkFile "logo.png")
             "data:image/png;base64" "AAAA"
             (Script.start Script2.withVideoAndError)
             eq_refl eq_refl eq_refl eq_refl).
  reflexivity.
Defined.

(** X3: when the string the reader yields has no comma, the promise
    resolves with [undefined] and the handler stores it: the logo held
    before is gone, the video is cleared, and no error is shown. *)
Theorem handleImageUpload_without_comma
    (env : Remote) (files : option (list File)) (file : File)
    (url : string) (s : Sys) :
  firstFile files = Some file ->
  readAsDataURL env file = Resolve url ->
  lacks ","%char url = true ->
  let a := app s in
  fst (fileToBase64 env file s) = Ok None
  /\ handleImageUpload env files s =
       (Ok tt,
        mkSys (mkApp (apiKeySelected a) (logoDescription a)
                     (animationPrompt a) (aspectRatio a) None None
                     (isGeneratingLogo a) (isGeneratingVideo a)
                     (videoStatus a) None)
              (trace s ++ [ReadAsDataURL file]) (polls s)).
Proof.
  intros Hfile Hread Hl. cbv zeta. split.
  - unfold fileToBase64, bind, emit. rewrite Hread. cbn [await ret].
    unfold ret. rewrite (split_lacks _ _ Hl). reflexivity.
  - unfold handleImageUpload, handleImageUpload_begin. rewrite Hfile.
    unfold handleImageUpload_resume, fileToBase64, try_catch, bind, emit.
    cbn. rewrite Hread. cbn. rewrite (split_lacks _ _ Hl). reflexivity.
Qed.

Lemma handleImageUpload_without_comma_witness :
  logoImageBase64
    (app (snd (handleImageUpload Script2.noComma (Some [mkFile "empty.png"])
                 (Script.start (Script.withLogo None))))) = None.
Proof.
  rewrite (proj2 (handleImageUpload_without_comma Script2.noComma
                    (Some [mkFile "empty.png"]) (mkFile "empty.png")
                    "data:" (Script.start (Script.withLogo None))
                    eq_refl eq_refl eq_refl)).
  reflexivity.
Defined.

(** ** handleGenerateLogo: the guard and the run that succeeds *)

(** X4: with an empty description, "generate logo" asks for a description
    and does nothing else: no request is sent, the busy flag stays down,
    and the logo and the video shown are kept. *)
Theorem handleGenerateLogo_guard (env : Remote) (s : Sys) :
  logoDescription (app s) = EmptyString ->
  let a := app s in
  handleGenerateLogo env s =
    (Ok tt,
     mkSys (mkApp (apiKeySelected a) (logoDescription a) (animationPrompt a)
                  (aspectRatio a) (logoImageBase64 a) (generatedVideoUrl a)
                  (isGeneratingLogo a) (isGeneratingVideo a) (videoStatus a)
                  (Some "Please enter a description for your logo."))
           (trace s) (polls s))
  /\ fst (handleGenerateLogo_begin s) = Ok None.
Proof.
  intros H. cbv zeta.
  assert (Hn : nonempty (logoDescription (app s)) = false)
    by (rewrite H; reflexivity).
  unfold handleGenerateLogo, handleGenerateLogo_begin, bind, read_app.
  rewrite Hn. split; reflexivity.
Qed.

Lemma handleGenerateLogo_guard_witness :
  handleGenerateLogo Script.twoPolls (Script.start initialState)
  = (Ok tt,
     mkSys (mkApp false EmptyString EmptyString Landscape_16_9 None None
                  false false EmptyString
                  (Some "Please enter a description for your logo."))
           [] 0).
Proof.
  exact (proj1 (handleGenerateLogo_guard Script.twoPolls
                  (Script.start initialState) eq_refl)).
Defined.

Lemma logoPrompt_includes_description (description : string) :
  includes description (logoPrompt description) = true.
Proof.
  apply includes_iff.
  exists ("a professional, modern, vector-style logo for a company. Description: "
          ++ dquote)%string,
         (dquote
          ++ ". The logo should be on a clean, solid-colored background. Minimalist, flat design.")%string.
  reflexivity.
Qed.

(** X5: when the image service answers with at least one image, "generate
    logo" sends exactly one request, whose prompt contains the description
    as typed, stores the bytes of the first image as the logo, leaves the
    video and the error cleared, and lowers the busy flag; with non-empty
    bytes and no video run in flight the stage is LogoReady. *)
Theorem handleGenerateLogo_success
    (env : Remote) (s : Sys) (resp : GenerateImagesResponse)
    (first : GeneratedImage) (others : list GeneratedImage) :
  nonempty (logoDescription (app s)) = true ->
  generateImages env (logoPrompt (logoDescription (app s))) = Resolve resp ->
  generatedImages resp = Some (first :: others) ->
  let a := app s in
  let request := logoPrompt (logoDescription a) in
  handleGenerateLogo env s =
    (Ok tt,
     mkSys (mkApp (apiKeySelected a) (logoDescription a) (animationPrompt a)
                  (aspectRatio a) (Some (imageBytes first)) None false
                  (isGeneratingVideo a) (videoStatus a) None)
           (trace s ++ [GenerateImages request]) (polls s))
  /\ includes (logoDescription a) request = true
  /\ (nonempty (imageBytes first) = true ->
      isGeneratingVideo a = false ->
      stage (app (snd (handleGenerateLogo env s))) = LogoReady).
Proof.
  intros Hdesc Hresp Himages. cbv zeta.
  pose proof (handleGenerateLogo_begin_run s Hdesc) as Hbegin.
  cbv zeta in Hbegin.
  assert (Hrun : forall s0,
    generateLogoImage env (logoDescription (app s)) s0
    = (Ok (imageBytes first),
       mkSys (app s0)
             (trace s0 ++ [GenerateImages (logoPrompt (logoDescription (app s)))])
             (polls s0))).
  { intros s0. unfold generateLogoImage, bind, emit. rewrite Hresp.
    cbn [await ret]. unfold ret at 1. rewrite Himages. reflexivity. }
  assert (Hall :
    handleGenerateLogo env s =
    (Ok tt,
     mkSys (mkApp (apiKeySelected (app s)) (logoDescription (app s))
                  (animationPrompt (app s)) (aspectRatio (app s))
                  (Some (imageBytes first)) None false
                  (isGeneratingVideo (app s)) (videoStatus (app s)) None)
           (trace s ++ [GenerateImages (logoPrompt (logoDescription (app s)))])
           (polls s))).
  { unfold handleGenerateLogo. rewrite (bind_ok _ _ _ _ _ Hbegin).
    cbv beta iota. unfold handleGenerateLogo_resume, try_finally, try_catch.
    rewrite (bind_ok _ _ _ _ _ (Hrun _)). reflexivity. }
  split; [exact Hall|]. split; [apply logoPrompt_includes_description|].
  intros Hbytes Hvideo. rewrite Hall. unfold stage. cbn.
  rewrite Hvideo, Hbytes. reflexivity.
Qed.

Lemma handleGenerateLogo_success_witness :
  stage (app (snd (handleGenerateLogo Script.twoPolls
                     (Script.start Script2.withVideoAndError)))) = LogoReady
  /\ generatedVideoUrl
       (app (snd (handleGenerateLogo Script.twoPolls
                    (Script.start Script2.withVideoAndError)))) = None.
Proof.
  destruct (handleGenerateLogo_success Script.twoPolls
              (Script.start Script2.withVideoAndError)
              (mkImagesResponse (Some [mkGeneratedImage "iVBORw0KGgo="]))
              (mkGeneratedImage "iVBORw0KGgo=") []
              eq_refl eq_refl eq_refl) as (Hall & _ & Hstage).
  split; [exact (Hstage eq_refl eq_refl)|].
  rewrite Hall. reflexivity.
Defined.

(** ** generateAnimatedVideo: what any run does, however the services answer *)

Lemma submitsOf_app (xs ys : list Event) :
  submitsOf (xs ++ ys) = submitsOf xs ++ submitsOf ys.
Proof. apply flat_map_app. Qed.

Lemma loadingMessage_in_list (i : nat) :
  In (loadingMessage (i mod length loadingMessages)) loadingMessages.
Proof.
  unfold loadingMessage. apply nth_In. apply Nat.mod_upper_bound.
  discriminate.
Qed.

Lemma refreshOperation_run env op s :
  exists r,
    refreshOperation env op s
    = (r, mkSys (app s) (trace s ++ [GetVideosOperation op]) (S (polls s)))
    /\ match getVideosOperation env (polls s) op with
       | Resolve refreshed => r = Ok refreshed
       | Reject e => r = Throw e
       end.
Proof.
  unfold refreshOperation.
  destruct (getVideosOperation env (polls s) op) as [refreshed|e];
    eexists; split; reflexivity.
Qed.

Lemma pollLoop_footprint (env : Remote) (cb : string -> M unit) :
  stateSetter cb ->
  forall fuel op idx s,
    exists r a evs n,
      pollLoop env cb fuel op idx s
      = (r, mkSys a (trace s ++ evs) (polls s + n))
      /\ Forall (fun m => In m loadingMessages) (statusesOf evs)
      /\ Forall (fun ms => ms = 10000%Z) (waitsOf evs)
      /\ length (waitsOf evs) <= fuel
      /\ fetchesOf evs = []
      /\ submitsOf evs = [].
Proof.
  intros Hcb. induction fuel as [|fuel IH]; intros op idx s;
    rewrite pollLoop_unfold; destruct (done op) eqn:Hd.
  - exists (Ok op), (app s), [], 0. rewrite app_nil_r, Nat.add_0_r.
    destruct s. repeat split; try constructor.
  - exists Pending, (app s), [], 0. rewrite app_nil_r, Nat.add_0_r.
    destruct s. repeat split; try constructor.
  - exists (Ok op), (app s), [], 0. rewrite app_nil_r, Nat.add_0_r.
    destruct s. repeat split; try constructor. cbn. lia.
  - set (idx' := (idx + 1) mod length loadingMessages).
    unfold sleep. unfold bind at 1. unfold emit at 1.
    destruct (callStatus_run cb (loadingMessage idx')
                (mkSys (app s) (trace s ++ [SetTimeout 10000]) (polls s)) Hcb)
      as [a1 Hstatus].
    rewrite (bind_ok _ _ _ _ _ Hstatus). cbn [trace polls].
    destruct (refreshOperation_run env op
                (mkSys a1 ((trace s ++ [SetTimeout 10000]) ++
                           [StatusUpdate (loadingMessage idx')]) (polls s)))
      as (r1 & Hrefresh & Hreply).
    cbn [app trace polls] in Hrefresh, Hreply.
    assert (Hhead :
      Forall (fun m => In m loadingMessages)
             (statusesOf [SetTimeout 10000; StatusUpdate (loadingMessage idx');
                          GetVideosOperation op])).
    { change (statusesOf [SetTimeout 10000;
                          StatusUpdate (loadingMessage idx');
                          GetVideosOperation op])
        with [loadingMessage idx'].
      apply Forall_cons; [apply loadingMessage_in_list | apply Forall_nil]. }
    destruct (getVideosOperation env (polls s) op) as [refreshed|e].
    + subst r1. rewrite (bind_ok _ _ _ _ _ Hrefresh).
      destruct (IH refreshed idx'
                  (mkSys a1 (((trace s ++ [SetTimeout 10000]) ++
                              [StatusUpdate (loadingMessage idx')]) ++
                             [GetVideosOperation op]) (S (polls s))))
        as (r & a & evs & n & Hloop & Hst & Hw & Hlen & Hf & Hsub).
      exists r, a,
        ([SetTimeout 10000; StatusUpdate (loadingMessage idx');
          GetVideosOperation op] ++ evs), (S n).
      split.
      { rewrite Hloop. cbn [trace polls]. rewrite <- !app_assoc.
        replace (S (polls s) + n) with (polls s + S n) by lia. reflexivity. }
      split; [rewrite statusesOf_app; apply Forall_app; split; assumption|].
      split; [rewrite waitsOf_app; apply Forall_app; split;
              [repeat constructor | assumption]|].
      split; [rewrite waitsOf_app, length_app; cbn; lia|].
      split; [rewrite fetchesOf_app, Hf; reflexivity|].
      rewrite submitsOf_app, Hsub; reflexivity.
    + subst r1. rewrite (bind_throw _ _ _ _ _ Hrefresh).
      exists (Throw e), a1,
        [SetTimeout 10000; StatusUpdate (loadingMessage idx');
         GetVideosOperation op], 1.
      split.
      { rewrite <- !app_assoc. rewrite Nat.add_1_r. reflexivity. }
      split; [exact Hhead|].
      split; [repeat constructor|].
      split; [cbn; lia|]. split; reflexivity.
Qed.

Lemma fetchPhase_footprint (env : Remote) (cb : string -> M unit)
    (op : Operation) (s : Sys) :
  stateSetter cb ->
  exists r a evs,
    fetchPhase env cb op s = (r, mkSys a (trace s ++ evs) (polls s))
    /\ Forall (fun m => m = "Fetching generated video...") (statusesOf evs)
    /\ waitsOf evs = []
    /\ length (fetchesOf evs) <= 1
    /\ submitsOf evs = [].
Proof.
  intros Hcb.
  destruct (narrowed (videoUri op)) as [link|] eqn:Hlink.
  - destruct (fetchPhase_located env cb op s link Hcb Hlink)
      as (a & r & evs & Hphase & Hst & Hw & Hf & _).
    exists r, a, evs. split; [exact Hphase|].
    split; [rewrite Hst; repeat constructor|].
    split; [exact Hw|]. split; [rewrite Hf; cbn; lia|].
    (* the events of the download are a status, a fetch and an object URL *)
    clear Hst Hw Hf. apply narrowed_some in Hlink. destruct Hlink as [Huri Hne].
    unfold fetchPhase in Hphase. rewrite Huri, Hne in Hphase.
    destruct (callStatus_run cb "Fetching generated video..." s Hcb)
      as [a0 Hstatus].
    rewrite (bind_ok _ _ _ _ _ Hstatus) in Hphase.
    unfold bind, emit in Hphase. cbn [app trace polls] in Hphase.
    destruct (fetch env (link ++ "&key=" ++ API_KEY env)%string)
      as [resp|e]; cbn [await] in Hphase.
    + unfold ret at 1 in Hphase. destruct (ok resp).
      * destruct (blob resp) as [content|e]; cbn [await] in Hphase;
          unfold ret, throw in Hphase; cbn [app trace polls] in Hphase;
          inversion Hphase as [[Hr Ha Ht]];
          rewrite <- !app_assoc in Ht; apply app_inv_head in Ht;
          subst evs; reflexivity.
      * unfold throw in Hphase. inversion Hphase as [[Hr Ha Ht]].
        rewrite <- !app_assoc in Ht. apply app_inv_head in Ht.
        subst evs; reflexivity.
    + unfold throw in Hphase. inversion Hphase as [[Hr Ha Ht]].
      rewrite <- !app_assoc in Ht. apply app_inv_head in Ht.
      subst evs; reflexivity.
  - assert (Hfalsy : truthy (videoUri op) = false)
      by (rewrite narrowed_truthy, Hlink; reflexivity).
    exists (Throw noResultError), (app s), [].
    rewrite (fetchPhase_no_locator env cb op s Hfalsy), app_nil_r.
    destruct s. repeat split; try constructor. cbn. lia.
Qed.

(** X6: whatever the services answer and however the run ends, a run of
    [generateAnimatedVideo] submits exactly one video request, carrying the
    caller's prompt, image and aspect ratio; every status message it
    reports is one of the seven loading messages or the fetching message,
    the first being "Warming up the animation engine..."; every timer it
    sets is of 10000 ms; and it fetches at most one address. *)
Theorem generateAnimatedVideo_footprint
    (env : Remote) (cb : string -> M unit) (fuel : nat)
    (imageB64 prompt : string) (ratio : AspectRatio) (s : Sys) :
  stateSetter cb ->
  exists evs,
    trace (snd (generateAnimatedVideo env fuel imageB64 prompt ratio cb s))
    = trace s ++ evs
    /\ submitsOf evs = [(prompt, imageB64, ratio)]
    /\ hd_error (statusesOf evs) = Some "Warming up the animation engine..."
    /\ Forall (fun m => In m (loadingMessages
                              ++ ["Fetching generated video..."]))
              (statusesOf evs)
    /\ Forall (fun ms => ms = 10000%Z) (waitsOf evs)
    /\ length (waitsOf evs) <= fuel
    /\ length (fetchesOf evs) <= 1.
Proof.
  intros Hcb. unfold generateAnimatedVideo, pollPhase.
  destruct (callStatus_run cb (loadingMessage 0) s Hcb) as [a0 Hfirst].
  set (head := [StatusUpdate (loadingMessage 0);
                GenerateVideos prompt imageB64 ratio]).
  assert (Hin : forall l, Forall (fun m => In m loadingMessages) l ->
                Forall (fun m => In m (loadingMessages
                                       ++ ["Fetching generated video..."])) l).
  { intros l. apply Forall_impl. intros m Hm. apply in_or_app. left; exact Hm. }
  destruct (generateVideos env prompt imageB64 ratio) as [submitted|e] eqn:Hs.
  - destruct (pollLoop_footprint env cb Hcb fuel submitted 0
                (mkSys a0 ((trace s ++ [StatusUpdate (loadingMessage 0)]) ++
                           [GenerateVideos prompt imageB64 ratio]) (polls s)))
      as (r & a & evs & n & Hloop & Hst & Hw & Hlen & Hf & Hsub).
    cbn [trace polls] in Hloop.
    assert (Hphase :
      bind (callStatus cb (loadingMessage 0))
        (fun _ => bind (submitVideo env prompt imageB64 ratio)
           (fun operation => pollLoop env cb fuel operation 0)) s
      = (r, mkSys a (trace s ++ head ++ evs) (polls s + n))).
    { rewrite (bind_ok _ _ _ _ _ Hfirst). unfold submitVideo.
      unfold bind at 1. unfold bind at 1. unfold emit at 1. rewrite Hs.
      cbn [await ret app trace polls]. rewrite Hloop.
      unfold head. rewrite <- !app_assoc. reflexivity. }
    destruct r as [final|e|].
    + rewrite (bind_ok _ _ _ _ _ Hphase).
      destruct (fetchPhase_footprint env cb final
                  (mkSys a (trace s ++ head ++ evs) (polls s + n)) Hcb)
        as (r' & a' & evs' & Hfetch & Hst' & Hw' & Hf' & Hsub').
      rewrite Hfetch. cbn [snd trace]. exists (head ++ evs ++ evs').
      split; [rewrite <- !app_assoc; reflexivity|].
      rewrite !submitsOf_app, !statusesOf_app, !waitsOf_app, !fetchesOf_app.
      rewrite Hsub, Hsub', Hw', Hf. cbn [head submitsOf statusesOf waitsOf
        fetchesOf flat_map List.app hd_error].
      split; [reflexivity|]. split; [reflexivity|]. split.
      { constructor; [apply in_or_app; left; left; reflexivity|].
        apply Forall_app. split; [apply Hin, Hst|].
        revert Hst'. apply Forall_impl. intros m ->.
        apply in_or_app. right. left. reflexivity. }
      split; [rewrite app_nil_r; exact Hw|].
      split; [rewrite app_nil_r; exact Hlen | exact Hf'].
    + rewrite (bind_throw _ _ _ _ _ Hphase). cbn [snd trace].
      exists (head ++ evs). split; [reflexivity|].
      rewrite !submitsOf_app, !statusesOf_app, !waitsOf_app, !fetchesOf_app.
      rewrite Hsub, Hf. cbn [head submitsOf statusesOf waitsOf
        fetchesOf flat_map List.app hd_error].
      split; [reflexivity|]. split; [reflexivity|]. split.
      { constructor; [apply in_or_app; left; left; reflexivity|].
        apply Hin, Hst. }
      split; [exact Hw|]. split; [exact Hlen | cbn; lia].
    + rewrite (bind_pending _ _ _ _ Hphase). cbn [snd trace].
      exists (head ++ evs). split; [reflexivity|].
      rewrite !submitsOf_app, !statusesOf_app, !waitsOf_app, !fetchesOf_app.
      rewrite Hsub, Hf. cbn [head submitsOf statusesOf waitsOf
        fetchesOf flat_map List.app hd_error].
      split; [reflexivity|]. split; [reflexivity|]. split.
      { constructor; [apply in_or_app; left; left; reflexivity|].
        apply Hin, Hst. }
      split; [exact Hw|]. split; [exact Hlen | cbn; lia].
  - assert (Hphase :
      bind (callStatus cb (loadingMessage 0))
        (fun _ => bind (submitVideo env prompt imageB64 ratio)
           (fun operation => pollLoop env cb fuel operation 0)) s
      = (Throw e, mkSys a0 (trace s ++ head) (polls s))).
    { rewrite (bind_ok _ _ _ _ _ Hfirst). unfold submitVideo.
      unfold bind at 1. unfold bind at 1. unfold emit at 1. rewrite Hs.
      cbn [await throw app trace polls]. unfold throw.
      unfold head. rewrite <- !app_assoc. reflexivity. }
    rewrite (bind_throw _ _ _ _ _ Hphase). cbn [snd trace].
    exists head. split; [reflexivity|].
    split; [reflexivity|]. split; [reflexivity|]. split.
    { apply Forall_cons; [|apply Forall_nil].
      apply in_or_app; left; left; reflexivity. }
    split; [constructor|]. split; cbn; lia.
Qed.

Lemma generateAnimatedVideo_footprint_witness :
  exists evs,
    trace (snd (generateAnimatedVideo Script2.pollFails 3 "AAAA" "fox winks"
                  Portrait_9_16 setVideoStatus
                  (Script.start (Script.withLogo None))))
    = [] ++ evs
    /\ submitsOf evs = [("fox winks", "AAAA", Portrait_9_16)].
Proof.
  destruct (generateAnimatedVideo_footprint Script2.pollFails setVideoStatus
              3 "AAAA" "fox winks" Portrait_9_16
              (Script.start (Script.withLogo None))
              setVideoStatus_stateSetter)
    as (evs & Htrace & Hsub & _).
  exists evs. split; [exact Htrace | exact Hsub].
Defined.

(** ** generateAnimatedVideo: rejected submission, rejected poll, no end *)

(** X7: when the submission is rejected, the run fails with the error of
    the service after the first status message and the request: no timer
    is set, nothing is polled and nothing is fetched. *)
Theorem generateAnimatedVideo_submission_rejected
    (env : Remote) (cb : string -> M unit) (fuel : nat)
    (imageB64 prompt : string) (ratio : AspectRatio) (s : Sys) (e : Thrown) :
  stateSetter cb ->
  generateVideos env prompt imageB64 ratio = Reject e ->
  exists a,
    generateAnimatedVideo env fuel imageB64 prompt ratio cb s
    = (Throw e,
       mkSys a (trace s ++ [StatusUpdate "Warming up the animation engine...";
                            GenerateVideos prompt imageB64 ratio])
             (polls s)).
Proof.
  intros Hcb Hs. unfold generateAnimatedVideo, pollPhase.
  destruct (callStatus_run cb (loadingMessage 0) s Hcb) as [a0 Hfirst].
  exists a0. apply bind_throw. rewrite (bind_ok _ _ _ _ _ Hfirst).
  unfold submitVideo. unfold bind at 1. unfold bind at 1. unfold emit at 1.
  rewrite Hs. cbn [await throw app trace polls]. unfold throw.
  rewrite <- !app_assoc. reflexivity.
Qed.

Lemma generateAnimatedVideo_submission_rejected_witness :
  exists a,
    generateAnimatedVideo Script.rejectedKey 5 "AAAA" "fox winks"
      Portrait_9_16 setVideoStatus (Script.start (Script.withLogo None))
    = (Throw (ErrorObj "404: Requested entity was not found."),
       mkSys a ([] ++ [StatusUpdate "Warming up the animation engine...";
                       GenerateVideos "fox winks" "AAAA" Portrait_9_16]) 0).
Proof.
  exact (generateAnimatedVideo_submission_rejected Script.rejectedKey
           setVideoStatus 5 "AAAA" "fox winks" Portrait_9_16
           (Script.start (Script.withLogo None))
           (ErrorObj "404: Requested entity was not found.")
           setVideoStatus_stateSetter eq_refl).
Defined.

Lemma map_seq_succ {A} (f : nat -> A) (n : nat) :
  map f (seq 0 (S n)) = f 0 :: map (fun j => f (S j)) (seq 0 n).
Proof. cbn [seq map]. rewrite <- seq_shift, map_map. reflexivity. Qed.

Lemma refreshesOf_app (xs ys : list Event) :
  refreshesOf (xs ++ ys) = refreshesOf xs ++ refreshesOf ys.
Proof. apply flat_map_app. Qed.

Lemma rejectedAfter_zero env n op e :
  rejectedAfter env n op 0 e ->
  done op = false /\ getVideosOperation env n op = Reject e.
Proof.
  intros (Hnot & last & Hlast & Hrej). cbn in Hlast. inversion Hlast; subst.
  rewrite Nat.add_0_r in Hrej. split; [|exact Hrej].
  destruct (Hnot 0 (le_n 0)) as (op0 & H0 & Hd). cbn in H0.
  inversion H0; subst. exact Hd.
Qed.

Lemma rejectedAfter_step env n op k e :
  rejectedAfter env n op (S k) e ->
  done op = false
  /\ exists refreshed,
       getVideosOperation env n op = Resolve refreshed
       /\ rejectedAfter env (S n) refreshed k e.
Proof.
  intros (Hnot & last & Hlast & Hrej). split.
  - destruct (Hnot 0 (Nat.le_0_l _)) as (op0 & H0 & Hd). cbn in H0.
    inversion H0; subst. exact Hd.
  - cbn in Hlast.
    destruct (getVideosOperation env n op) as [refreshed|e'] eqn:E;
      [|discriminate Hlast].
    exists refreshed. split; [reflexivity|]. split.
    + intros j Hj. destruct (Hnot (S j)) as (opj & Hj1 & Hj2); [lia|].
      cbn in Hj1. rewrite E in Hj1. exists opj. split; assumption.
    + exists last. split; [exact Hlast|].
      replace (S n + k) with (n + S k) by lia. exact Hrej.
Qed.

Lemma pollLoop_rejected (env : Remote) (cb : string -> M unit) :
  stateSetter cb ->
  forall k fuel op idx s e,
    rejectedAfter env (polls s) op k e ->
    k < fuel ->
    exists a evs,
      pollLoop env cb fuel op idx s
      = (Throw e, mkSys a (trace s ++ evs) (polls s + S k))
      /\ statusesOf evs
         = map (fun j => loadingMessage
                           ((idx + S j) mod length loadingMessages))
               (seq 0 (S k))
      /\ waitsOf evs = repeat 10000%Z (S k)
      /\ length (refreshesOf evs) = S k
      /\ fetchesOf evs = [].
Proof.
  intros Hcb. induction k as [|k IH]; intros fuel op idx s e Hrun Hfuel;
    (destruct fuel as [|fuel]; [lia|]); rewrite pollLoop_unfold.
  - apply rejectedAfter_zero in Hrun. destruct Hrun as [Hd Hrej].
    rewrite Hd. set (idx' := (idx + 1) mod length loadingMessages).
    unfold sleep. unfold bind at 1. unfold emit at 1.
    destruct (callStatus_run cb (loadingMessage idx')
                (mkSys (app s) (trace s ++ [SetTimeout 10000]) (polls s)) Hcb)
      as [a1 Hstatus].
    rewrite (bind_ok _ _ _ _ _ Hstatus). cbn [trace polls].
    exists a1, [SetTimeout 10000; StatusUpdate (loadingMessage idx');
                GetVideosOperation op].
    split.
    { apply bind_throw. unfold refreshOperation. cbn [app trace polls].
      rewrite Hrej. cbn [await]. unfold throw. rewrite <- !app_assoc.
      rewrite Nat.add_1_r. reflexivity. }
    repeat split.
  - apply rejectedAfter_step in Hrun.
    destruct Hrun as (Hd & refreshed & Hpoll & Hrest).
    rewrite Hd. set (idx' := (idx + 1) mod length loadingMessages).
    unfold sleep. unfold bind at 1. unfold emit at 1.
    destruct (callStatus_run cb (loadingMessage idx')
                (mkSys (app s) (trace s ++ [SetTimeout 10000]) (polls s)) Hcb)
      as [a1 Hstatus].
    rewrite (bind_ok _ _ _ _ _ Hstatus). cbn [trace polls].
    assert (Hrefresh :
      refreshOperation env op
        (mkSys a1 ((trace s ++ [SetTimeout 10000]) ++
                   [StatusUpdate (loadingMessage idx')]) (polls s))
      = (Ok refreshed,
         mkSys a1 (((trace s ++ [SetTimeout 10000]) ++
                    [StatusUpdate (loadingMessage idx')]) ++
                   [GetVideosOperation op]) (S (polls s)))).
    { unfold refreshOperation. cbn [app trace polls]. rewrite Hpoll.
      reflexivity. }
    rewrite (bind_ok _ _ _ _ _ Hrefresh).
    destruct (IH fuel refreshed idx'
                (mkSys a1 (((trace s ++ [SetTimeout 10000]) ++
                            [StatusUpdate (loadingMessage idx')]) ++
                           [GetVideosOperation op]) (S (polls s)))
                e Hrest ltac:(lia))
      as (a & evs & Hloop & Hst & Hw & Hr & Hf).
    exists a,
      ([SetTimeout 10000; StatusUpdate (loadingMessage idx');
        GetVideosOperation op] ++ evs).
    split.
    { rewrite Hloop. cbn [trace polls]. rewrite <- !app_assoc.
      replace (S (polls s) + S k) with (polls s + S (S k)) by lia.
      reflexivity. }
    split.
    { rewrite statusesOf_app, Hst.
      change (statusesOf [SetTimeout 10000; StatusUpdate (loadingMessage idx');
                          GetVideosOperation op])
        with [loadingMessage idx'].
      cbn [List.app]. rewrite (map_seq_succ _ (S k)).
      apply (f_equal2 cons); [reflexivity|].
      apply map_ext. intros j.
      unfold idx'. f_equal. rewrite Nat.Div0.add_mod_idemp_l.
      f_equal. lia. }
    split; [rewrite waitsOf_app, Hw; reflexivity|].
    split; [rewrite refreshesOf_app, length_app, Hr; reflexivity|].
    rewrite fetchesOf_app, Hf. reflexivity.
Qed.

(** X8: when the handle reports "not done" at submission and after [k]
    refreshes and the next refresh is rejected, the run fails with the
    error of that refresh (enough fuel given): it has set [k + 1] timers of
    10000 ms, reported [k + 2] status messages following the cycle, and
    fetched nothing; a failed poll is not retried. *)
Theorem generateAnimatedVideo_poll_rejected
    (env : Remote) (cb : string -> M unit) (fuel : nat)
    (imageB64 prompt : string) (ratio : AspectRatio) (s : Sys)
    (k : nat) (submitted : Operation) (e : Thrown) :
  stateSetter cb ->
  generateVideos env prompt imageB64 ratio = Resolve submitted ->
  rejectedAfter env (polls s) submitted k e ->
  k < fuel ->
  exists a evs,
    generateAnimatedVideo env fuel imageB64 prompt ratio cb s
    = (Throw e, mkSys a (trace s ++ evs) (polls s + S k))
    /\ statusesOf evs = map cycleMessage (seq 0 (k + 2))
    /\ waitsOf evs = repeat 10000%Z (k + 1)
    /\ length (refreshesOf evs) = k + 1
    /\ fetchesOf evs = [].
Proof.
  intros Hcb Hs Hrun Hfuel. unfold generateAnimatedVideo, pollPhase.
  destruct (callStatus_run cb (loadingMessage 0) s Hcb) as [a0 Hfirst].
  destruct (pollLoop_rejected env cb Hcb k fuel submitted 0
              (mkSys a0 ((trace s ++ [StatusUpdate (loadingMessage 0)]) ++
                         [GenerateVideos prompt imageB64 ratio]) (polls s))
              e Hrun Hfuel)
    as (a & evs & Hloop & Hst & Hw & Hr & Hf).
  cbn [trace polls] in Hloop.
  exists a,
    ([StatusUpdate (loadingMessage 0); GenerateVideos prompt imageB64 ratio]
     ++ evs).
  split.
  { apply bind_throw. rewrite (bind_ok _ _ _ _ _ Hfirst). unfold submitVideo.
    unfold bind at 1. unfold bind at 1. unfold emit at 1. rewrite Hs.
    cbn [await ret app trace polls]. rewrite Hloop. rewrite <- !app_assoc.
    reflexivity. }
  split.
  { rewrite statusesOf_app, Hst. replace (k + 2) with (S (S k)) by lia.
    change (statusesOf [StatusUpdate (loadingMessage 0);
                        GenerateVideos prompt imageB64 ratio])
      with [loadingMessage 0].
    cbn [List.app]. rewrite (map_seq_succ _ (S k)). reflexivity. }
  split; [rewrite waitsOf_app, Hw, Nat.add_1_r; reflexivity|].
  split; [|rewrite fetchesOf_app, Hf; reflexivity].
  rewrite refreshesOf_app, length_app, Hr. cbn. lia.
Qed.

Lemma pollFails_rejectedAfter :
  rejectedAfter Script2.pollFails 0 Script.runningOperation 1
    (ErrorObj "500: internal error").
Proof.
  split.
  - intros j Hj. destruct j as [|[|j]]; [| |lia];
      exists Script.runningOperation; split; reflexivity.
  - exists Script.runningOperation. split; reflexivity.
Qed.

Lemma generateAnimatedVideo_poll_rejected_witness :
  exists a evs,
    generateAnimatedVideo Script2.pollFails 3 "AAAA" "fox winks"
      Portrait_9_16 setVideoStatus (Script.start (Script.withLogo None))
    = (Throw (ErrorObj "500: internal error"), mkSys a ([] ++ evs) (0 + 2))
    /\ waitsOf evs = [10000%Z; 10000%Z].
Proof.
  destruct (generateAnimatedVideo_poll_rejected Script2.pollFails
              setVideoStatus 3 "AAAA" "fox winks" Portrait_9_16
              (Script.start (Script.withLogo None)) 1
              Script.runningOperation (ErrorObj "500: internal error")
              setVideoStatus_stateSetter eq_refl pollFails_rejectedAfter
              (le_S 2 2 (le_n 2)))
    as (a & evs & Hrun & _ & Hw & _).
  exists a, evs. split; [exact Hrun | exact Hw].
Defined.

Lemma pollLoop_neverDone (env : Remote) (cb : string -> M unit) :
  stateSetter cb ->
  neverDone env ->
  forall fuel op idx s,
    done op = false ->
    exists a evs,
      pollLoop env cb fuel op idx s
      = (Pending, mkSys a (trace s ++ evs) (polls s + fuel))
      /\ waitsOf evs = repeat 10000%Z fuel
      /\ length (statusesOf evs) = fuel
      /\ fetchesOf evs = [].
Proof.
  intros Hcb Hnever. induction fuel as [|fuel IH]; intros op idx s Hd;
    rewrite pollLoop_unfold, Hd.
  - exists (app s), []. rewrite app_nil_r, Nat.add_0_r. destruct s.
    repeat split.
  - set (idx' := (idx + 1) mod length loadingMessages).
    unfold sleep. unfold bind at 1. unfold emit at 1.
    destruct (callStatus_run cb (loadingMessage idx')
                (mkSys (app s) (trace s ++ [SetTimeout 10000]) (polls s)) Hcb)
      as [a1 Hstatus].
    rewrite (bind_ok _ _ _ _ _ Hstatus). cbn [trace polls].
    destruct (Hnever (polls s) op) as (refreshed & Hpoll & Hd').
    assert (Hrefresh :
      refreshOperation env op
        (mkSys a1 ((trace s ++ [SetTimeout 10000]) ++
                   [StatusUpdate (loadingMessage idx')]) (polls s))
      = (Ok refreshed,
         mkSys a1 (((trace s ++ [SetTimeout 10000]) ++
                    [StatusUpdate (loadingMessage idx')]) ++
                   [GetVideosOperation op]) (S (polls s)))).
    { unfold refreshOperation. cbn [app trace polls]. rewrite Hpoll.
      reflexivity. }
    rewrite (bind_ok _ _ _ _ _ Hrefresh).
    destruct (IH refreshed idx'
                (mkSys a1 (((trace s ++ [SetTimeout 10000]) ++
                            [StatusUpdate (loadingMessage idx')]) ++
                           [GetVideosOperation op]) (S (polls s))) Hd')
      as (a & evs & Hloop & Hw & Hst & Hf).
    exists a,
      ([SetTimeout 10000; StatusUpdate (loadingMessage idx');
        GetVideosOperation op] ++ evs).
    split.
    { rewrite Hloop. cbn [trace polls]. rewrite <- !app_assoc.
      replace (S (polls s) + fuel) with (polls s + S fuel) by lia.
      reflexivity. }
    split; [rewrite waitsOf_app, Hw; reflexivity|].
    split; [rewrite statusesOf_app, length_app, Hst; reflexivity|].
    rewrite fetchesOf_app, Hf. reflexivity.
Qed.

Lemma handleGenerateVideo_pending (env : Remote) (fuel : nat) (s : Sys)
    (logo : string) (s1 : Sys) :
  narrowed (logoImageBase64 (app s)) = Some logo ->
  nonempty (animationPrompt (app s)) = true ->
  generateAnimatedVideo env fuel logo (animationPrompt (app s))
    (aspectRatio (app s)) setVideoStatus (snd (handleGenerateVideo_begin s))
  = (Pending, s1) ->
  let a := app s in
  handleGenerateVideo env fuel s =
    (Pending,
     mkSys (mkApp (apiKeySelected a) (logoDescription a) (animationPrompt a)
                  (aspectRatio a) (logoImageBase64 a) None
                  (isGeneratingLogo a) true (videoStatus (app s1)) None)
           (trace s1) (polls s1)).
Proof.
  intros Hlogo Hprompt Hrun. cbv zeta.
  pose proof (handleGenerateVideo_begin_run s logo Hlogo Hprompt) as Hbegin.
  cbv zeta in Hbegin. rewrite Hbegin in Hrun. cbn [snd] in Hrun.
  pose proof (frames_generateAnimatedVideo _ _ _ _ _ _ _ _ Hrun) as Hframe.
  unfold handleGenerateVideo. rewrite (bind_ok _ _ _ _ _ Hbegin).
  cbv beta iota.
  unfold handleGenerateVideo_resume, try_finally, try_catch.
  rewrite (bind_pending _ _ _ _ Hrun).
  destruct s1 as [a1 t1 p1]. unfold onlyStatusDiffers in Hframe.
  destruct a1. cbn in Hframe. inversion Hframe; subst. reflexivity.
Qed.

(** X9: there is no timeout and no cancellation: when the service never
    reports the operation done, the animation never settles, however many
    polls it is given; after [fuel] polls it has set [fuel] timers of
    10000 ms, the handler is still suspended, the busy flag is still up,
    no video and no error is shown, and nothing was fetched. *)
Theorem handleGenerateVideo_never_settles
    (env : Remote) (s : Sys) (logo : string) (submitted : Operation) :
  neverDone env ->
  narrowed (logoImageBase64 (app s)) = Some logo ->
  nonempty (animationPrompt (app s)) = true ->
  generateVideos env (animationPrompt (app s)) logo (aspectRatio (app s))
  = Resolve submitted ->
  done submitted = false ->
  forall fuel,
    let run := handleGenerateVideo env fuel s in
    let after := app (snd run) in
    fst run = Pending
    /\ isGeneratingVideo after = true
    /\ generatedVideoUrl after = None
    /\ error after = None
    /\ exists evs,
         trace (snd run) = trace s ++ evs
         /\ waitsOf evs = repeat 10000%Z fuel
         /\ fetchesOf evs = [].
Proof.
  intros Hnever Hlogo Hprompt Hs Hd fuel. cbv zeta.
  pose proof (handleGenerateVideo_begin_run s logo Hlogo Hprompt) as Hbegin.
  cbv zeta in Hbegin.
  remember (snd (handleGenerateVideo_begin s)) as s0 eqn:Hs0.
  assert (Htrace0 : trace s0 = trace s) by (rewrite Hs0, Hbegin; reflexivity).
  destruct (callStatus_run setVideoStatus (loadingMessage 0) s0
              setVideoStatus_stateSetter) as [a0 Hfirst].
  destruct (pollLoop_neverDone env setVideoStatus setVideoStatus_stateSetter
              Hnever fuel submitted 0
              (mkSys a0 ((trace s0 ++ [StatusUpdate (loadingMessage 0)]) ++
                         [GenerateVideos (animationPrompt (app s)) logo
                            (aspectRatio (app s))]) (polls s0)) Hd)
    as (a & evs & Hloop & Hw & _ & Hf).
  cbn [trace polls] in Hloop.
  assert (Hservice :
    generateAnimatedVideo env fuel logo (animationPrompt (app s))
      (aspectRatio (app s)) setVideoStatus s0
    = (Pending,
       mkSys a (((trace s0 ++ [StatusUpdate (loadingMessage 0)]) ++
                 [GenerateVideos (animationPrompt (app s)) logo
                    (aspectRatio (app s))]) ++ evs) (polls s0 + fuel))).
  { unfold generateAnimatedVideo, pollPhase. apply bind_pending.
    rewrite (bind_ok _ _ _ _ _ Hfirst). unfold submitVideo.
    unfold bind at 1. unfold bind at 1. unfold emit at 1. rewrite Hs.
    cbn [await ret app trace polls]. exact Hloop. }
  rewrite Hs0 in Hservice.
  rewrite (handleGenerateVideo_pending env fuel s logo _ Hlogo Hprompt Hservice).
  cbn [fst snd app trace isGeneratingVideo generatedVideoUrl error].
  repeat (split; [reflexivity|]).
  exists ([StatusUpdate (loadingMessage 0);
           GenerateVideos (animationPrompt (app s)) logo (aspectRatio (app s))]
          ++ evs).
  rewrite <- Hs0, Htrace0, <- !app_assoc. split; [reflexivity|].
  split; [rewrite waitsOf_app, Hw; reflexivity|].
  rewrite fetchesOf_app, Hf. reflexivity.
Qed.

Lemma stuck_neverDone : neverDone Script2.stuck.
Proof.
  intros n op. exists Script.runningOperation. split; reflexivity.
Qed.

Lemma handleGenerateVideo_never_settles_witness :
  fst (handleGenerateVideo Script2.stuck 4
         (Script.start (Script.withLogo None))) = Pending
  /\ isGeneratingVideo
       (app (snd (handleGenerateVideo Script2.stuck 4
                    (Script.start (Script.withLogo None))))) = true.
Proof.
  destruct (handleGenerateVideo_never_settles Script2.stuck
              (Script.start (Script.withLogo None)) "AAAA"
              Script.runningOperation stuck_neverDone
              eq_refl eq_refl eq_refl eq_refl 4)
    as (Hpending & Hbusy & _).
  split; [exact Hpending | exact Hbusy].
Defined.

(** ** handleGenerateVideo: what is sent, and when the key is given up *)

(** X10: an animation that passes the guards sends exactly one video
    request, and it carries the logo, the prompt and the aspect ratio the
    component holds when the button is pressed, whatever happens next. *)
Theorem handleGenerateVideo_request
    (env : Remote) (fuel : nat) (s : Sys) (logo : string) :
  narrowed (logoImageBase64 (app s)) = Some logo ->
  nonempty (animationPrompt (app s)) = true ->
  exists evs,
    trace (snd (handleGenerateVideo env fuel s)) = trace s ++ evs
    /\ submitsOf evs
       = [(animationPrompt (app s), logo, aspectRatio (app s))].
Proof.
  intros Hlogo Hprompt.
  pose proof (handleGenerateVideo_begin_run s logo Hlogo Hprompt) as Hbegin.
  cbv zeta in Hbegin.
  destruct (generateAnimatedVideo_footprint env setVideoStatus fuel logo
              (animationPrompt (app s)) (aspectRatio (app s))
              (snd (handleGenerateVideo_begin s)) setVideoStatus_stateSetter)
    as (evs & Htrace & Hsub & _).
  destruct (generateAnimatedVideo env fuel logo (animationPrompt (app s))
              (aspectRatio (app s)) setVideoStatus
              (snd (handleGenerateVideo_begin s))) as [r s1] eqn:Hrun.
  exists evs.
  rewrite (handleGenerateVideo_trace env fuel s logo r s1 Hlogo Hprompt Hrun).
  cbn [snd] in Htrace. rewrite Htrace, Hbegin. split; [reflexivity | exact Hsub].
Qed.

Lemma handleGenerateVideo_request_witness :
  exists evs,
    trace (snd (handleGenerateVideo Script.twoPolls 2
                  (Script.start (Script.withLogo None)))) = [] ++ evs
    /\ submitsOf evs = [("fox winks", "AAAA", Portrait_9_16)].
Proof.
  exact (handleGenerateVideo_request Script.twoPolls 2
           (Script.start (Script.withLogo None)) "AAAA" eq_refl eq_refl).
Defined.

Lemma credentialRejected_iff (err : Thrown) :
  credentialRejected err = true
  <-> exists before after,
        err = ErrorObj (before ++ notFoundPhrase ++ after)%string.
Proof.
  unfold credentialRejected. destruct err as [message|description];
    cbn [message_or].
  - rewrite includes_iff. split; intros (a & b & H); exists a, b.
    + rewrite H. reflexivity.
    + inversion H. reflexivity.
  - split; [vm_compute; discriminate|].
    intros (a & b & H). discriminate H.
Qed.

(** X11: a failed animation gives up the selected key exactly when the
    thrown value is an [Error] whose message contains "Requested entity
    was not found" somewhere; any other [Error], and any thrown value that
    is not an [Error] (whatever it says), leaves the key selected. *)
Theorem handleGenerateVideo_gives_up_key_iff
    (env : Remote) (fuel : nat) (s : Sys) (logo : string) (e : Thrown)
    (s1 : Sys) :
  apiKeySelected (app s) = true ->
  narrowed (logoImageBase64 (app s)) = Some logo ->
  nonempty (animationPrompt (app s)) = true ->
  generateAnimatedVideo env fuel logo (animationPrompt (app s))
    (aspectRatio (app s)) setVideoStatus (snd (handleGenerateVideo_begin s))
  = (Throw e, s1) ->
  apiKeySelected (app (snd (handleGenerateVideo env fuel s))) = false
  <-> exists before after,
        e = ErrorObj (before ++ notFoundPhrase ++ after)%string.
Proof.
  intros Hkey Hlogo Hprompt Hrun.
  rewrite (handleGenerateVideo_throw env fuel s logo e s1 Hlogo Hprompt Hrun).
  cbn [snd app apiKeySelected]. rewrite <- credentialRejected_iff.
  destruct (credentialRejected e); rewrite ?Hkey; split; congruence.
Qed.

Lemma handleGenerateVideo_gives_up_key_iff_witness :
  apiKeySelected
    (app (snd (handleGenerateVideo Script2.throwsObject 5
                 (Script.start (Script.withLogo None))))) = false
  <-> exists before after,
        OtherThrown "{ code: 404, status: 'Requested entity was not found' }"
        = ErrorObj (before ++ notFoundPhrase ++ after)%string.
Proof.
  exact (handleGenerateVideo_gives_up_key_iff Script2.throwsObject 5
           (Script.start (Script.withLogo None)) "AAAA"
           (OtherThrown
              "{ code: 404, status: 'Requested entity was not found' }")
           (mkSys (mkApp true "A minimalist fox icon" "fox winks"
                     Portrait_9_16 (Some "AAAA") None false true
                     "Warming up the animation engine..." None)
                  [StatusUpdate "Warming up the animation engine...";
                   GenerateVideos "fox winks" "AAAA" Portrait_9_16] 0)
           eq_refl eq_refl eq_refl eq_refl).
Defined.



(** X13: an uploaded file is what gets animated: after a successful
    upload of a data URL, starting the animation sends the payload of that
    data URL as the image of the video request, with the prompt and the
    aspect ratio of the component. *)
Theorem upload_then_animate
    (env : Remote) (fuel : nat) (files : option (list File)) (file : File)
    (header payload : string) (s : Sys) :
  firstFile files = Some file ->
  readAsDataURL env file
  = Resolve (header ++ String ","%char payload)%string ->
  lacks ","%char header = true ->
  lacks ","%char payload = true ->
  nonempty payload = true ->
  nonempty (animationPrompt (app s)) = true ->
  exists evs,
    trace (snd (bind (handleImageUpload env files)
                     (fun _ => handleGenerateVideo env fuel) s))
    = trace s ++ ReadAsDataURL file :: evs
    /\ submitsOf evs
       = [(animationPrompt (app s), payload, aspectRatio (app s))].
Proof.
  intros Hfile Hread Hh Hp Hne Hprompt.
  pose proof (handleImageUpload_success env files file header payload s
                Hfile Hread Hh Hp) as Hup. cbv zeta in Hup.
  rewrite (bind_ok _ _ _ _ _ Hup).
  match goal with
  | |- context [handleGenerateVideo env fuel ?s0] =>
      destruct (handleGenerateVideo_request env fuel s0 payload)
        as (evs & Htrace & Hsub)
  end.
  - cbn. rewrite Hne. reflexivity.
  - exact Hprompt.
  - exists evs. rewrite Htrace. cbn [trace app animationPrompt aspectRatio]
      in *. rewrite <- app_assoc. split; [reflexivity | exact Hsub].
Qed.

Lemma upload_then_animate_witness :
  exists evs,
    trace (snd (bind (handleImageUpload Script.twoPolls
                        (Some [mkFile "logo.png"]))
                     (fun _ => handleGenerateVideo Script.twoPolls 2)
                     (Script.start Script2.withVideoAndError)))
    = [] ++ ReadAsDataURL (mkFile "logo.png") :: evs
    /\ submitsOf evs = [("fox winks", "AAAA", Landscape_16_9)].
Proof.
  exact (upload_then_animate Script.twoPolls 2 (Some [mkFile "logo.png"])
           (mkFile "logo.png") "data:image/png;base64" "AAAA"
           (Script.start Script2.withVideoAndError)
           eq_refl eq_refl eq_refl eq_refl eq_refl eq_refl).
Defined.

(** ** The component under interleaved actions: requests and the gate *)





Lemma step_untouched (c c' : Ctrl) (act : Action) :
  untouched c ->
  grantsKey act = false ->
  step c act = Some c' ->
  untouched c'.
Proof.
  intros (Hui & Hl & Hu & Hv) Hgrant Hstep.
  destruct c as [a f]. cbn [ui inflight] in *. subst a.
  unfold step in Hstep. cbn [ui] in Hstep. unfold untouched.
  destruct act as [studio| |opening|text|text|newRatio| |outcome|files
                  |outcome| |message|outcome];
    cbn in Hstep; try discriminate Hstep.
  - unfold settle_task in Hstep.
    destruct (running _ _); [|discriminate Hstep].
    inversion Hstep; subst. cbn [ui inflight].
    destruct studio as [[[|]|e]|]; try discriminate Hgrant; cbn;
      repeat split; assumption.
  - inversion Hstep; subst. cbn. repeat split; assumption.
  - unfold settle_task in Hstep.
    destruct (running _ _); [|discriminate Hstep].
    inversion Hstep; subst. cbn [ui inflight].
    destruct opening as [[]|e]; try discriminate Hgrant; cbn;
      repeat split; assumption.
  - unfold settle_task, running in Hstep. cbn [inflight] in Hstep.
    rewrite Hl in Hstep. discriminate Hstep.
  - unfold settle_task, running in Hstep. cbn [inflight] in Hstep.
    rewrite Hu in Hstep. discriminate Hstep.
  - unfold running in Hstep. cbn [inflight] in Hstep.
    rewrite Hv in Hstep. discriminate Hstep.
  - unfold settle_task, running in Hstep. cbn [inflight] in Hstep.
    rewrite Hv in Hstep. discriminate Hstep.
Qed.

(** X15: the credential gate closes the workflow: as long as no key check
    has found a key (or found no host) and no key selection has completed,
    whatever the user does and whatever settles, the component is in its
    initial state and no logo request, upload or video run is in flight. *)
Theorem gate_blocks_workflow (acts : list Action) (c : Ctrl) :
  steps mounted acts = Some c ->
  existsb grantsKey acts = false ->
  ui c = initialState
  /\ inflight c LogoRun = 0
  /\ inflight c Upload = 0
  /\ inflight c VideoRun = 0.
Proof.
  intros Hsteps Hgrant. change (untouched c).
  assert (Hinit : untouched mounted) by (repeat split).
  revert Hsteps Hgrant Hinit. generalize mounted.
  induction acts as [|act acts IH]; intros c0 Hsteps Hgrant Hinv.
  - inversion Hsteps; subst. exact Hinv.
  - cbn in Hsteps, Hgrant. apply orb_false_iff in Hgrant.
    destruct Hgrant as [Hact Hrest].
    destruct (step c0 act) as [c1|] eqn:E; [|discriminate Hsteps].
    exact (IH c1 Hsteps Hrest (step_untouched c0 c1 act Hinv Hact E)).
Qed.

Lemma gate_blocks_workflow_witness :
  option_map ui
    (steps mounted [KeyCheckSettles (Some (Resolve false)); ClickSelectKey;
                    SelectKeySettles (Reject (OtherThrown "dismissed"))])
  = Some initialState.
Proof.
  destruct (steps mounted [KeyCheckSettles (Some (Resolve false));
                           ClickSelectKey;
                           SelectKeySettles (Reject (OtherThrown "dismissed"))])
    as [c|] eqn:E; [|vm_compute in E; discriminate E].
  cbn [option_map]. f_equal.
  exact (proj1 (gate_blocks_workflow _ c E eq_refl)).
Defined.

(** ** The results column *)

(** X16: the results column is never empty, never shows the logo image
    and the video player together, and hides the logo image while a video
    is being generated. *)
Theorem resultsColumn_panels (a : AppState) :
  resultsColumn a <> []
  /\ (existsb isLogoImage (resultsColumn a)
      && existsb isVideoPlayer (resultsColumn a) = false)
  /\ (isGeneratingVideo a = true ->
      existsb isLogoImage (resultsColumn a) = false).
Proof.
  destruct a as [key desc prompt ratio logo vid genLogo genVideo status err].
  unfold resultsColumn, shown, shownWith, truthy. cbn.
  destruct logo as [[|c logo]|], vid as [[|d vid]|], genLogo, genVideo; cbn;
    repeat split; try discriminate; reflexivity.
Qed.

(** X17: with both busy flags down the results column shows exactly one
    panel, that of the stage: the placeholder in NoLogo, the logo as a PNG
    data URL in LogoReady, and in VideoReady (a logo being held) the
    player on the video with the selected aspect ratio. *)
Theorem resultsColumn_of_quiet_stage (a : AppState) :
  (stage a = NoLogo -> resultsColumn a = [Placeholder])
  /\ (stage a = LogoReady ->
      exists logo,
        logoImageBase64 a = Some logo
        /\ resultsColumn a
           = [LogoImage ("data:image/png;base64," ++ logo)%string])
  /\ (stage a = VideoReady -> truthy (logoImageBase64 a) = true ->
      exists url,
        generatedVideoUrl a = Some url
        /\ resultsColumn a = [VideoPlayer url (aspectRatio a)]).
Proof.
  destruct a as [key desc prompt ratio logo vid genLogo genVideo status err].
  unfold stage, resultsColumn, shown, shownWith, truthy. cbn.
  destruct genLogo, genVideo, logo as [[|c logo]|], vid as [[|d vid]|]; cbn;
    repeat split; intros; try discriminate; try reflexivity;
    eexists; split; reflexivity.
Qed.

Lemma resultsColumn_of_quiet_stage_witness :
  exists logo,
    logoImageBase64 (Script.withLogo None) = Some logo
    /\ resultsColumn (Script.withLogo None)
       = [LogoImage ("data:image/png;base64," ++ logo)%string].
Proof.
  exact (proj1 (proj2 (resultsColumn_of_quiet_stage (Script.withLogo None)))
           eq_refl).
Defined.

Lemma resultsColumn_panels_witness :
  existsb isLogoImage
    (resultsColumn (mkApp true "A minimalist fox icon" "fox winks"
                      Portrait_9_16 (Some "AAAA") None false true
                      "Teaching pixels to dance..." None)) = false.
Proof.
  exact (proj2 (proj2 (resultsColumn_panels
           (mkApp true "A minimalist fox icon" "fox winks" Portrait_9_16
              (Some "AAAA") None false true "Teaching pixels to dance..."
              None))) eq_refl).
Defined.

(** ** generateAnimatedVideo: a download that breaks off *)

Lemma fetchPhase_interrupted (env : Remote) (cb : string -> M unit)
    (op : Operation) (s : Sys) (link : string) (e : Thrown) :
  stateSetter cb ->
  narrowed (videoUri op) = Some link ->
  let url := (link ++ "&key=" ++ API_KEY env)%string in
  (fetch env url = Reject e
   \/ exists resp,
        fetch env url = Resolve resp /\ ok resp = true
        /\ blob resp = Reject e) ->
  exists a,
    fetchPhase env cb op s
    = (Throw e,
       mkSys a (trace s ++ [StatusUpdate "Fetching generated video...";
                            Fetch url]) (polls s)).
Proof.
  intros Hcb Hlink. cbv zeta. intros Hbreak.
  apply narrowed_some in Hlink. destruct Hlink as [Huri Hne].
  unfold fetchPhase. rewrite Huri, Hne.
  destruct (callStatus_run cb "Fetching generated video..." s Hcb)
    as [a Hstatus].
  rewrite (bind_ok _ _ _ _ _ Hstatus). exists a.
  unfold bind, emit. cbn [app trace polls].
  destruct Hbreak as [Hfetch | (resp & Hfetch & Hok & Hblob)];
    rewrite Hfetch; cbn [await].
  - unfold throw. rewrite <- !app_assoc. reflexivity.
  - unfold ret at 1. rewrite Hok, Hblob. cbn [await]. unfold throw.
    rewrite <- !app_assoc. reflexivity.
Qed.

Lemma offline_completes :
  completesAfter Script2.offline 0 Script.runningOperation 1
    (Script.finishedOperation (Some "https://videos.example/v1?alt=media")).
Proof.
  split; [|split; reflexivity].
  intros k Hk. destruct k as [|k]; [|lia].
  exists Script.runningOperation; split; reflexivity.
Qed.

(** X18: when the operation completes with a locator and the download
    breaks off (the fetch is rejected, or the response is successful but
    its body cannot be read), the run fails with that very error; the
    fetching message and one fetch of the locator with the key appended
    are the last things it does: the fetch is not repeated and no object
    URL is created after it. *)
Theorem generateAnimatedVideo_download_interrupted
    (env : Remote) (cb : string -> M unit) (fuel : nat)
    (imageB64 prompt : string) (ratio : AspectRatio) (s : Sys)
    (N : nat) (submitted final : Operation) (link : string) (e : Thrown) :
  stateSetter cb ->
  generateVideos env prompt imageB64 ratio = Resolve submitted ->
  completesAfter env (polls s) submitted N final ->
  N <= fuel ->
  narrowed (videoUri final) = Some link ->
  let url := (link ++ "&key=" ++ API_KEY env)%string in
  (fetch env url = Reject e
   \/ exists resp,
        fetch env url = Resolve resp /\ ok resp = true
        /\ blob resp = Reject e) ->
  exists a evs,
    generateAnimatedVideo env fuel imageB64 prompt ratio cb s
    = (Throw e,
       mkSys a (trace s ++ evs ++ [StatusUpdate "Fetching generated video...";
                                   Fetch url]) (polls s + N))
    /\ fetchesOf evs = []
    /\ waitsOf evs = repeat 10000%Z N.
Proof.
  intros Hcb Hsubmit Hrun Hfuel Hlink. cbv zeta. intros Hbreak.
  destruct (pollPhase_run env cb fuel imageB64 prompt ratio s N submitted
              final Hcb Hsubmit Hrun Hfuel)
    as (a & evs & Hpoll & _ & Hw & Hf).
  destruct (fetchPhase_interrupted env cb final
              (mkSys a (trace s ++ evs) (polls s + N)) link e Hcb Hlink
              Hbreak) as [a' Hphase].
  cbn [trace polls] in Hphase.
  exists a', evs. split; [|split; assumption].
  unfold generateAnimatedVideo. rewrite (bind_ok _ _ _ _ _ Hpoll), Hphase.
  rewrite app_assoc. reflexivity.
Qed.

Lemma generateAnimatedVideo_download_interrupted_witness :
  exists a evs,
    generateAnimatedVideo Script2.offline 1 "AAAA" "fox winks" Portrait_9_16
      setVideoStatus (Script.start (Script.withLogo None))
    = (Throw (ErrorObj "TypeError: Failed to fetch"),
       mkSys a ([] ++ evs
                ++ [StatusUpdate "Fetching generated video...";
                    Fetch "https://videos.example/v1?alt=media&key=KEY"])
             (0 + 1))
    /\ fetchesOf evs = [].
Proof.
  destruct (generateAnimatedVideo_download_interrupted Script2.offline
              setVideoStatus 1 "AAAA" "fox winks" Portrait_9_16
              (Script.start (Script.withLogo None)) 1
              Script.runningOperation
              (Script.finishedOperation
                 (Some "https://videos.example/v1?alt=media"))
              "https://videos.example/v1?alt=media"
              (ErrorObj "TypeError: Failed to fetch")
              setVideoStatus_stateSetter eq_refl offline_completes (le_n 1)
              eq_refl (or_introl eq_refl))
    as (a & evs & Hrun & Hf & _).
  exists a, evs. split; [exact Hrun | exact Hf].
Defined.

(** ** One task at a time, as long as no upload arrives *)

Lemma step_oneTaskAtATime (c c' : Ctrl) (act : Action) :
  oneTaskAtATime c ->
  uploadArrives act = false ->
  step c act = Some c' ->
  oneTaskAtATime c'.
Proof.
  intros [Hnone Hone] Hup Hstep.
  destruct c as [a f]. cbn [ui inflight] in *.
  unfold step in Hstep. cbn [ui] in Hstep.
  destruct (enabled a act) eqn:Hen; [|discriminate Hstep].
  destruct a as [key desc prompt ratio logo vid genLogo genVideo status err].
  cbn [isGeneratingLogo isGeneratingVideo logoImageBase64] in *.
  unfold oneTaskAtATime.
  destruct act as [studio| |opening|text|text|newRatio| |outcome|files
                  |outcome| |message|outcome].
  - settle_step Hstep. cbn.
    destruct studio as [[hasKey|e]|]; cbn; split; assumption.
  - inversion Hstep; subst. cbn. split; assumption.
  - settle_step Hstep. destruct opening; cbn; split; assumption.
  - inversion Hstep; subst. cbn. split; assumption.
  - inversion Hstep; subst. cbn. split; assumption.
  - inversion Hstep; subst. cbn. split; assumption.
  - (* ClickGenerateLogo *)
    cbn in Hen. apply andb_true_iff in Hen. destruct Hen as [_ Hen].
    apply negb_true_iff, orb_false_iff in Hen. destruct Hen as [Hgl Hgv].
    subst genLogo genVideo.
    inversion Hstep; subst. unfold begin_task, exec. cbn.
    destruct (nonempty desc); cbn; split; try reflexivity; assumption.
  - (* LogoSettles *)
    settle_step Hstep.
    destruct outcome; cbn; split; try reflexivity; intros; discriminate.
  - (* ChooseFiles *)
    inversion Hstep; subst. unfold begin_task, exec, handleImageUpload_begin.
    destruct (firstFile files); cbn; split; assumption.
  - (* UploadSettles *)
    settle_step Hstep. destruct outcome as [base64|e];
      [discriminate Hup|]. cbn. split; assumption.
  - (* ClickGenerateAnimation *)
    cbn in Hen. apply andb_true_iff in Hen. destruct Hen as [_ Hen].
    apply negb_true_iff, orb_false_iff in Hen. destruct Hen as [Hgv Htruthy].
    subst genVideo. apply negb_false_iff in Htruthy.
    destruct logo as [image|]; [|discriminate Htruthy]. cbn in Htruthy.
    assert (Hgl : genLogo = false).
    { destruct genLogo; [|reflexivity]. discriminate (Hnone eq_refl). }
    subst genLogo.
    inversion Hstep; subst. unfold begin_task, exec. cbn. rewrite Htruthy.
    destruct (nonempty prompt); cbn; split; try reflexivity; assumption.
  - (* StatusArrives *)
    destruct (running (mkCtrl
                (mkApp key desc prompt ratio logo vid genLogo genVideo status
                       err) f) VideoRun); [|discriminate Hstep].
    inversion Hstep; subst. cbn. split; assumption.
  - (* VideoSettles *)
    settle_step Hstep. destruct outcome as [url|e].
    + cbn. split; [assumption | apply andb_false_r].
    + unfold exec, handleGenerateVideo_resume, try_finally, try_catch, bind,
        throw.
      cbn -[includes].
      destruct (includes _ _); cbn; split;
        try assumption; apply andb_false_r.
Qed.

(** X19: the two stages are serialized as long as no upload arrives: in
    every configuration reached by actions among which no file read
    resolves, the logo busy flag and the video busy flag are never up
    together, and no logo is held while one is being generated. *)
Theorem one_task_at_a_time_without_upload (acts : list Action) (c : Ctrl) :
  steps mounted acts = Some c ->
  existsb uploadArrives acts = false ->
  isGeneratingLogo (ui c) && isGeneratingVideo (ui c) = false
  /\ (isGeneratingLogo (ui c) = true -> logoImageBase64 (ui c) = None).
Proof.
  intros Hsteps Hup.
  assert (H : oneTaskAtATime c).
  { assert (Hinit : oneTaskAtATime mounted)
      by (split; [intros H; discriminate H | reflexivity]).
    revert Hsteps Hup Hinit. generalize mounted.
    induction acts as [|act acts IH]; intros c0 Hsteps Hup Hinv.
    - inversion Hsteps; subst. exact Hinv.
    - cbn in Hsteps, Hup. apply orb_false_iff in Hup.
      destruct Hup as [Hact Hrest].
      destruct (step c0 act) as [c1|] eqn:E; [|discriminate Hsteps].
      exact (IH c1 Hsteps Hrest (step_oneTaskAtATime c0 c1 act Hinv Hact E)). }
  destruct H as [Hnone Hone]. split; assumption.
Qed.

Lemma one_task_at_a_time_without_upload_witness :
  option_map (fun c => isGeneratingLogo (ui c) && isGeneratingVideo (ui c))
    (steps mounted [KeyCheckSettles None;
                    TypeDescription "A minimalist fox icon";
                    ClickGenerateLogo;
                    LogoSettles (Resolve "iVBORw0KGgo=");
                    TypePrompt "fox winks";
                    ClickGenerateAnimation])
  = Some false.
Proof.
  destruct (steps mounted [KeyCheckSettles None;
                           TypeDescription "A minimalist fox icon";
                           ClickGenerateLogo;
                           LogoSettles (Resolve "iVBORw0KGgo=");
                           TypePrompt "fox winks";
                           ClickGenerateAnimation])
    as [c|] eqn:E; [|vm_compute in E; discriminate E].
  cbn [option_map]. f_equal.
  exact (proj1 (one_task_at_a_time_without_upload _ c E eq_refl)).
Defined.
